(** * Multimodal contextual-retrieval notebook: page pairing, context
      annotation and the multimodal query engine

    A shallow embedding of the Python cells of
    [examples/parse/multimodal/multimodal_contextual_retrieval_rag.ipynb]:
    [get_page_number], [_get_sorted_image_files], [get_text_nodes],
    [create_contextual_nodes] and [MultimodalQueryEngine.custom_query].

    Conventions.
    - A Python [str] is a [string] holding its UTF-8 bytes.  Searching for
      an ASCII pattern, byte by byte, finds what Python finds character by
      character; the class [\d] is read character by character.
    - A Python [int] is a [Z].
    - A Python [dict] used for node metadata keeps insertion order (the
      order shows in the node content), so it is an association list with
      Python's update-in-place [__setitem__].
    - An exception is a value of [exn]; a computation that can raise
      returns a [result]. *)

From Stdlib Require Import ZArith Ascii String List Lia Bool.
From Stdlib Require Import Sorting.Permutation Sorting.Sorted.
From stdpp Require Import base option list sorting strings gmap.

Local Open Scope Z_scope.

(** ** Python strings *)

Module PyStr.

(** The line feed, ["\n"]. *)
Definition LF : ascii := ascii_of_nat 10.
Definition NL : string := String LF EmptyString.

(** [s.startswith(p)], returning what follows [p]. *)
Fixpoint strip_prefix (p s : string) : option string :=
  match p, s with
  | EmptyString, _ => Some s
  | String a p', String b s' =>
      if Ascii.eqb a b then strip_prefix p' s' else None
  | String _ _, EmptyString => None
  end.

(** [p in s] for two strings: [p] occurs at some offset of [s]. *)
Fixpoint contains (p s : string) : bool :=
  match strip_prefix p s with
  | Some _ => true
  | None =>
      match s with
      | EmptyString => false
      | String _ s' => contains p s'
      end
  end.

(** [sep.join(parts)]. *)
Fixpoint join (sep : string) (parts : list string) : string :=
  match parts with
  | [] => EmptyString
  | [x] => x
  | x :: rest => x +:+ sep +:+ join sep rest
  end.

(** Python strings are Unicode; a [string] holds the UTF-8 bytes.  The
    first character of [s]: its code point, its bytes, and what follows.
    Bytes that do not start a well-formed character give [None]. *)
Definition is_cont (b : ascii) : bool :=
  ((128 <=? N_of_ascii b) && (N_of_ascii b <? 192))%N.

Definition cont_bits (b : ascii) : N := (N_of_ascii b - 128)%N.

Definition utf8_head (s : string) : option (N * string * string) :=
  match s with
  | EmptyString => None
  | String b0 r0 =>
      let n0 := N_of_ascii b0 in
      if (n0 <? 128)%N then Some (n0, String b0 EmptyString, r0)
      else if (n0 <? 194)%N then None
      else if (n0 <? 224)%N then
        match r0 with
        | String b1 r1 =>
            if is_cont b1
            then Some (((n0 - 192) * 64 + cont_bits b1)%N,
                       String b0 (String b1 EmptyString), r1)
            else None
        | EmptyString => None
        end
      else if (n0 <? 240)%N then
        match r0 with
        | String b1 (String b2 r2) =>
            let cp := ((n0 - 224) * 4096 + cont_bits b1 * 64 + cont_bits b2)%N in
            if is_cont b1 && is_cont b2 && (2048 <=? cp)%N
               && negb ((55296 <=? cp) && (cp <? 57344))%N
            then Some (cp, String b0 (String b1 (String b2 EmptyString)), r2)
            else None
        | _ => None
        end
      else if (n0 <? 245)%N then
        match r0 with
        | String b1 (String b2 (String b3 r3)) =>
            let cp := ((n0 - 240) * 262144 + cont_bits b1 * 4096
                       + cont_bits b2 * 64 + cont_bits b3)%N in
            if is_cont b1 && is_cont b2 && is_cont b3
               && (65536 <=? cp)%N && (cp <? 1114112)%N
            then Some (cp,
                       String b0 (String b1 (String b2 (String b3 EmptyString))),
                       r3)
            else None
        | _ => None
        end
      else None
  end.

(** The code points of the digit zero of every run of decimal digits
    (Unicode category Nd, Unicode 14.0 as in CPython 3.11): each is followed
    by the digits one to nine of its script.  These are the characters
    that [\d] matches in a [str] pattern and that [int] reads. *)
Definition decimal_zeros : list N :=
  [48; 1632; 1776; 1984; 2406; 2534; 2662; 2790; 2918; 3046; 3174; 3302;
   3430; 3558; 3664; 3792; 3872; 4160; 4240; 6112; 6160; 6470; 6608; 6784;
   6800; 6992; 7088; 7232; 7248; 42528; 43216; 43264; 43472; 43504; 43600;
   44016; 65296; 66720; 68912; 69734; 69872; 69942; 70096; 70384; 70736;
   70864; 71248; 71360; 71472; 71904; 72016; 72784; 73040; 73120; 92768;
   92864; 93008; 120782; 120792; 120802; 120812; 120822; 123200; 123632;
   125264; 130032]%N.

(** The value of a decimal digit, by its code point. *)
Definition digit_of_code (cp : N) : option Z :=
  match find (fun z => (z <=? cp) && (cp <? z + 10))%N decimal_zeros with
  | Some z => Some (Z.of_N (cp - z))
  | None => None
  end.

(** The class [\d] at the head of [s]: the value of the digit, its bytes,
    and what follows. *)
Definition decimal_digit (s : string) : option (Z * string * string) :=
  match utf8_head s with
  | Some (cp, c, r) =>
      match digit_of_code cp with
      | Some v => Some (v, c, r)
      | None => None
      end
  | None => None
  end.

(** The digits at the head of [s], one after the other, and the rest.  A
    digit takes at least one byte, so [fuel] bytes of fuel are enough for
    a string of [fuel] bytes. *)
Fixpoint scan_digits_fuel (fuel : nat) (s : string)
  : list (string * Z) * string :=
  match fuel with
  | O => ([], s)
  | S fuel' =>
      match decimal_digit s with
      | Some (v, c, r) =>
          let '(ds, rest) := scan_digits_fuel fuel' r in ((c, v) :: ds, rest)
      | None => ([], s)
      end
  end.

Definition scan_digits (s : string) : list (string * Z) * string :=
  scan_digits_fuel (String.length s) s.

Fixpoint concat_str (parts : list string) : string :=
  match parts with
  | [] => EmptyString
  | x :: rest => x +:+ concat_str rest
  end.

(** The longest run of digits at the head of [s], and the rest. *)
Definition span_digits (s : string) : string * string :=
  let '(ds, rest) := scan_digits s in (concat_str (map fst ds), rest).

(** [s] is made of decimal digits only. *)
Definition all_digits (s : string) : bool :=
  match snd (scan_digits s) with
  | EmptyString => true
  | String _ _ => false
  end.

(** [int(ds)] for a string of decimal digits.  (CPython refuses digit
    strings longer than 4300 characters; a path string is shorter.) *)
Definition int_acc (acc : Z) (values : list Z) : Z :=
  fold_left (fun a v => 10 * a + v) values acc.

Definition int_of_digits (ds : string) : Z :=
  int_acc 0 (map snd (fst (scan_digits ds))).

(** The first character of a string, if any, is a digit. *)
Definition starts_with_digit (s : string) : bool :=
  match decimal_digit s with
  | Some _ => true
  | None => false
  end.

(** An ASCII character that is no digit. *)
Definition is_ascii_nondigit (c : ascii) : bool :=
  ((N_of_ascii c <? 128) && negb ((48 <=? N_of_ascii c) && (N_of_ascii c <? 58)))%N.

(** [c] occurs in [s]. *)
Fixpoint has_char (c : ascii) (s : string) : bool :=
  match s with
  | EmptyString => false
  | String x s' => Ascii.eqb c x || has_char c s'
  end.

(** [s.endswith(suf)]. *)
Fixpoint ends_with (suf s : string) : bool :=
  String.eqb s suf
  || match s with
     | EmptyString => false
     | String _ s' => ends_with suf s'
     end.

End PyStr.

(** ** [get_page_number] *)

(** [$] without [re.MULTILINE]: the end of the string, or just before a
    line feed that is the last character of the string. *)
Definition at_dollar (rest : string) : bool :=
  match rest with
  | EmptyString => true
  | String c EmptyString => Ascii.eqb c PyStr.LF
  | _ => false
  end.

(** The pattern [-page_(\d+)\.jpg$] tried at the head of [s]; the result is
    group 1.  [\d+] is greedy and is followed by a literal dot, so giving
    back digits can not turn a failed attempt into a match: the longest
    run of digits is the only candidate. *)
Definition match_here (s : string) : option string :=
  match PyStr.strip_prefix "-page_" s with
  | None => None
  | Some r =>
      let '(ds, rest) := PyStr.span_digits r in
      match ds with
      | EmptyString => None
      | String _ _ =>
          match PyStr.strip_prefix ".jpg" rest with
          | None => None
          | Some tail => if at_dollar tail then Some ds else None
          end
      end
  end.

(** [re.search]: the first offset, from the left, at which the pattern
    matches. *)
Fixpoint re_search (s : string) : option string :=
  match match_here s with
  | Some g => Some g
  | None =>
      match s with
      | EmptyString => None
      | String _ s' => re_search s'
      end
  end.

Definition get_page_number (file_name : string) : Z :=
  match re_search file_name with
  | Some g => PyStr.int_of_digits g
  | None => 0
  end.

(** The file name ends with ["-page_<digits>.jpg"], for the non-empty
    digit string [ds]. *)
Definition ends_with_page_pattern (file_name ds : string) : Prop :=
  ds <> EmptyString /\ PyStr.all_digits ds = true
  /\ exists pre, file_name = pre +:+ "-page_" +:+ ds +:+ ".jpg".

(** ** Exceptions *)

Inductive exn : Type :=
| KeyError (key : string)
| IndexError
| ValidationError.

Inductive result (A : Type) : Type :=
| Ok (a : A)
| Raise (e : exn).
Arguments Ok {A} a.
Arguments Raise {A} e.

#[global] Instance result_ret : MRet result := fun A a => Ok a.
#[global] Instance result_bind : MBind result := fun A B f m =>
  match m with
  | Ok a => f a
  | Raise e => Raise e
  end.

(** [l[i]] for a list and an index that is not negative. *)
Definition list_index {A} (l : list A) (i : nat) : result A :=
  match l !! i with
  | Some x => Ok x
  | None => Raise IndexError
  end.

(** [enumerate(l)], counting from [k]. *)
Fixpoint enumerate_from {A} (k : nat) (l : list A) : list (nat * A) :=
  match l with
  | [] => []
  | x :: l' => (k, x) :: enumerate_from (S k) l'
  end.

Definition enumerate {A} (l : list A) : list (nat * A) := enumerate_from 0 l.

(** ** Values and dictionaries *)

Inductive Value : Type :=
| VInt (z : Z)
| VStr (s : string).

(** A [dict] with string keys, in insertion order. *)
Definition dict : Type := list (string * Value).

Fixpoint dict_get (k : string) (d : dict) : option Value :=
  match d with
  | [] => None
  | (k', v) :: d' => if String.eqb k k' then Some v else dict_get k d'
  end.

(** [d[k] = v]: an existing key keeps its place, a new key goes last. *)
Fixpoint dict_set (k : string) (v : Value) (d : dict) : dict :=
  match d with
  | [] => [(k, v)]
  | (k', v') :: d' =>
      if String.eqb k k' then (k, v) :: d' else (k', v') :: dict_set k v d'
  end.

Definition dict_keys (d : dict) : list string := map fst d.

(** [d[k]], raising [KeyError]. *)
Definition dict_item (k : string) (d : dict) : result Value :=
  match dict_get k d with
  | Some v => Ok v
  | None => Raise (KeyError k)
  end.

(** ** Nodes *)

(** The fields of a [TextNode] that the notebook sets and reads. *)
Record TextNode : Type := mkTextNode {
  text : string;
  metadata : dict
}.

(** ** The image directory *)

(** A directory entry: its name, and what [is_file()] answers for it. *)
Record DirEntry : Type := mkDirEntry {
  entry_name : string;
  entry_is_file : bool
}.

(** A directory: [str(Path(image_dir))] and the entries, in the order in
    which [iterdir()] yields them (any order). *)
Record Directory : Type := mkDirectory {
  dir_path : string;
  dir_entries : list DirEntry
}.

(** A path object yielded by [iterdir()]. *)
Record Path : Type := mkPath {
  path_str : string;
  is_file : bool
}.

(** [str(Path(d) / name)]: the current directory ["."] contributes
    nothing, a root (["/"]) is followed by the name, any other
    directory by ["/"] and the name. *)
Definition child_path (d name : string) : string :=
  if String.eqb d "." then name
  else if PyStr.ends_with "/" d then d +:+ name
  else d +:+ "/" +:+ name.

Definition iterdir (image_dir : Directory) : list Path :=
  map (fun e => mkPath (child_path (dir_path image_dir) (entry_name e))
                       (entry_is_file e))
      (dir_entries image_dir).

(** ** [sorted(l, key=...)] *)

(** Python's [sorted] is stable and ascending; so is insertion with ties
    kept behind the inserted, earlier, element. *)
Section Sorted.
Context {A : Type} (key : A -> Z).

Fixpoint insert_by (x : A) (l : list A) : list A :=
  match l with
  | [] => [x]
  | y :: l' => if key x <=? key y then x :: y :: l' else y :: insert_by x l'
  end.

Definition sorted (l : list A) : list A := foldr insert_by [] l.
End Sorted.

(** ** [_get_sorted_image_files] *)

Definition page_key (f : Path) : Z := get_page_number (path_str f).

Definition raw_files (image_dir : Directory) : list Path :=
  List.filter (fun f => is_file f && PyStr.contains "-page" (path_str f))
              (iterdir image_dir).

Definition _get_sorted_image_files (image_dir : Directory) : list Path :=
  let sorted_files := sorted page_key (raw_files image_dir) in
  sorted_files.

(** ** [get_text_nodes] *)

(** One page record of the parser's JSON result. *)
Abbreviation page_dict := (gmap string Value).

(** [d["md"]] on a page record. *)
Definition page_item (k : string) (d : page_dict) : result Value :=
  match d !! k with
  | Some v => Ok v
  | None => Raise (KeyError k)
  end.

(** The body of the loop, for one [(idx, md_text)]. *)
Definition text_node_at (image_files : list Path) (md_texts : list Value)
    (idx : nat) : result TextNode :=
  let chunk_metadata := dict_set "page_num" (VInt (Z.of_nat idx + 1)) [] in
  image_file ← list_index image_files idx;
  let chunk_metadata :=
    dict_set "image_path" (VStr (path_str image_file)) chunk_metadata in
  md ← list_index md_texts idx;
  let chunk_metadata := dict_set "parsed_text_markdown" md chunk_metadata in
  mret (mkTextNode "" chunk_metadata).

Fixpoint text_nodes_loop (image_files : list Path) (md_texts : list Value)
    (items : list (nat * Value)) (nodes : list TextNode)
  : result (list TextNode) :=
  match items with
  | [] => Ok nodes
  | (idx, _) :: items' =>
      node ← text_node_at image_files md_texts idx;
      text_nodes_loop image_files md_texts items' (nodes ++ [node])
  end.

Definition get_text_nodes (image_dir : Directory) (json_dicts : list page_dict)
  : result (list TextNode) :=
  let nodes := [] in
  let image_files := _get_sorted_image_files image_dir in
  md_texts ← mapM (page_item "md") json_dicts;
  text_nodes_loop image_files md_texts (enumerate md_texts) nodes.

(** The chunk that pairs page [idx + 1] with [image_file] and the page
    text [md]. *)
Definition page_node (idx : nat) (image_file : Path) (md : Value) : TextNode :=
  mkTextNode ""
    [("page_num", VInt (Z.of_nat idx + 1));
     ("image_path", VStr (path_str image_file));
     ("parsed_text_markdown", md)].

(** Pairing by position, counting pages from [k + 1]; it stops with the
    shorter list. *)
Fixpoint page_nodes (k : nat) (image_files : list Path) (md_texts : list Value)
  : list TextNode :=
  match image_files, md_texts with
  | image_file :: image_files', md :: md_texts' =>
      page_node k image_file md :: page_nodes (S k) image_files' md_texts'
  | _, _ => []
  end.

(** ** Chat messages *)

Inductive MessageRole : Type := system | user | assistant.

Definition role_value (r : MessageRole) : string :=
  match r with
  | system => "system"
  | user => "user"
  | assistant => "assistant"
  end.

(** One part of a multi-part message content: the dictionary with the
    keys ["text"], ["type"] and, for a cached prefix, ["cache_control"]
    (kept as the ["type"] entry of that inner dictionary). *)
Record ContentPart : Type := mkContentPart {
  part_text : string;
  part_type : string;
  part_cache_control : option string
}.

Inductive MessageContent : Type :=
| ContentText (s : string)
| ContentParts (parts : list ContentPart).

Record ChatMessage : Type := mkChatMessage {
  role : MessageRole;
  content : MessageContent
}.

(** What [llm.chat] is called with. *)
Record ChatRequest : Type := mkChatRequest {
  messages : list ChatMessage;
  extra_headers : list (string * string)
}.

(** The reply of [llm.chat]: the role and the text of its message. *)
Record ChatResponse : Type := mkChatResponse {
  response_role : MessageRole;
  response_text : string
}.

(** [str(new_response)]: the library renders a chat response as its
    message, role first.  The notebook's recorded output shows it: the
    stored summaries read ["context: assistant: This chunk is ..."]. *)
Definition ChatResponse_str (r : ChatResponse) : string :=
  role_value (response_role r) +:+ ": " +:+ response_text r.

(** ** The prompt templates of the annotator *)

(** [whole_doc_text.format(WHOLE_DOCUMENT=doc)]. *)
Definition whole_doc_text (doc : string) : string :=
  "Here is the entire document." +:+ PyStr.NL +:+
  "<document>" +:+ PyStr.NL +:+
  doc +:+ PyStr.NL +:+
  "</document>".

(** [chunk_text.format(CHUNK_CONTENT=chunk)]. *)
Definition chunk_text (chunk : string) : string :=
  "Here is the chunk we want to situate within the whole document" +:+ PyStr.NL +:+
  "<chunk>" +:+ PyStr.NL +:+
  chunk +:+ PyStr.NL +:+
  "</chunk>" +:+ PyStr.NL +:+
  "Please give a short succinct context to situate this chunk within the overall document for " +:+
  "the purposes of improving search retrieval of the chunk. Answer only with the succinct context and nothing else.".

(** The two content parts of the user message. *)
Definition document_part (doc_text : string) : ContentPart :=
  mkContentPart (whole_doc_text doc_text) "text" (Some "ephemeral").

Definition chunk_part (chunk_content : string) : ContentPart :=
  mkContentPart (chunk_text chunk_content) "text" None.

Definition annotation_messages (doc_text chunk_content : string)
  : list ChatMessage :=
  [ mkChatMessage system (ContentText "You are a helpful AI Assistant.");
    mkChatMessage user
      (ContentParts [document_part doc_text; chunk_part chunk_content]) ].

Definition annotation_request (doc_text chunk_content : string) : ChatRequest :=
  mkChatRequest (annotation_messages doc_text chunk_content)
                [("anthropic-beta", "prompt-caching-2024-07-31")].

(** ** [create_contextual_nodes] *)

(** The library's metadata modes of [get_content]. *)
Inductive MetadataMode : Type := MetadataMode_ALL | MetadataMode_EMBED
                               | MetadataMode_LLM | MetadataMode_NONE.

(** Nodes are objects: a list of nodes is a list of references into a
    store, the same reference may occur twice, and a write through a
    reference is seen through every alias.  A reference is the index of
    its cell; a new object takes the next free index. *)
Abbreviation ref := nat.
Abbreviation store := (list TextNode).

Section Annotator.

(** [node.get_content(metadata_mode=...)], from the library: a function
    of the node's fields. *)
Variable get_content : MetadataMode -> TextNode -> string.

(** The generation service: its state, and [llm.chat] as a step on it. *)
Variable LLM : Type.
Variable llm_chat : LLM -> ChatRequest -> ChatResponse * LLM.

(** The state a run works on: the object store, the service, and the
    requests sent to the service so far, oldest first. *)
Record RunState : Type := mkRunState {
  st_store : store;
  st_llm : LLM;
  st_requests : list ChatRequest
}.

(** A computation on the run state; [None] is a reference to no
    object, which a Python list can not hold. *)
Definition Run (A : Type) : Type := RunState -> option (A * RunState).

#[local] Instance Run_ret : MRet Run := fun A a st => Some (a, st).
#[local] Instance Run_bind : MBind Run := fun A B f m st =>
  match m st with
  | Some (a, st') => f a st'
  | None => None
  end.

(** Reading the object behind a reference. *)
Definition deref (r : ref) : Run TextNode := fun st =>
  match st_store st !! r with
  | Some n => Some (n, st)
  | None => None
  end.

(** [deepcopy(node)]: a new object with equal fields. *)
Definition deepcopy (r : ref) : Run ref := fun st =>
  match st_store st !! r with
  | Some n =>
      Some (length (st_store st),
            mkRunState (st_store st ++ [n]) (st_llm st) (st_requests st))
  | None => None
  end.

(** [node.metadata[key] = value], a write into the object. *)
Definition set_metadata (r : ref) (key : string) (value : Value) : Run unit :=
  fun st =>
    match st_store st !! r with
    | Some n =>
        Some (tt,
              mkRunState
                (<[r := mkTextNode (text n) (dict_set key value (metadata n))]>
                   (st_store st))
                (st_llm st) (st_requests st))
    | None => None
    end.

(** [llm.chat(messages, extra_headers=...)]. *)
Definition chat (req : ChatRequest) : Run ChatResponse := fun st =>
  let '(resp, llm') := llm_chat (st_llm st) req in
  Some (resp, mkRunState (st_store st) llm' (st_requests st ++ [req])).

Definition node_content (r : ref) : Run string :=
  n ← deref r; mret (get_content MetadataMode_ALL n).

(** The body of the loop of [create_contextual_nodes] for one node (the
    timing and the progress line are left out). *)
Definition contextual_node (doc_text : string) (node : ref) : Run ref :=
  new_node ← deepcopy node;
  chunk_content ← node_content node;
  let request := annotation_request doc_text chunk_content in
  new_response ← chat request;
  _ ← set_metadata new_node "context" (VStr (ChatResponse_str new_response));
  mret new_node.

Fixpoint contextual_nodes_loop (doc_text : string) (nodes : list ref)
    (nodes_modified : list ref) : Run (list ref) :=
  match nodes with
  | [] => mret nodes_modified
  | node :: nodes' =>
      new_node ← contextual_node doc_text node;
      contextual_nodes_loop doc_text nodes' (nodes_modified ++ [new_node])
  end.

Definition create_contextual_nodes (nodes : list ref) : Run (list ref) :=
  let nodes_modified := [] in
  contents ← mapM node_content nodes;
  let doc_text := PyStr.join PyStr.NL contents in
  contextual_nodes_loop doc_text nodes nodes_modified.

(** The replies of the service to a sequence of requests, one after the
    other, and the state it is left in. *)
Fixpoint chat_all (llm : LLM) (requests : list ChatRequest)
  : list ChatResponse * LLM :=
  match requests with
  | [] => ([], llm)
  | req :: requests' =>
      let '(resp, llm') := llm_chat llm req in
      let '(resps, llm'') := chat_all llm' requests' in
      (resp :: resps, llm'')
  end.

(** The requests of a run on nodes with the fields [objs]: the document
    text is the contents of all of them, joined by line feeds. *)
Definition annotation_requests (objs : list TextNode) : list ChatRequest :=
  let doc_text :=
    PyStr.join PyStr.NL (map (get_content MetadataMode_ALL) objs) in
  map (fun n => annotation_request doc_text (get_content MetadataMode_ALL n))
      objs.

(** The objects behind a list of references, all of them in the store. *)
Definition objects_of (s : store) (nodes : list ref) (objs : list TextNode)
  : Prop :=
  Forall2 (fun r n => s !! r = Some n) nodes objs.

End Annotator.

(** A node with the reply of the service stored as its context. *)
Definition with_context (n : TextNode) (resp : ChatResponse) : TextNode :=
  mkTextNode (text n)
             (dict_set "context" (VStr (ChatResponse_str resp)) (metadata n)).

Arguments mkRunState {LLM} st_store st_llm st_requests.
Arguments st_store {LLM} r.
Arguments st_llm {LLM} r.
Arguments st_requests {LLM} r.
Arguments chat_all {LLM} llm_chat llm requests.
Arguments create_contextual_nodes get_content {LLM} llm_chat nodes.
Arguments contextual_nodes_loop get_content {LLM} llm_chat doc_text nodes nodes_modified.
Arguments contextual_node get_content {LLM} llm_chat doc_text node.
Arguments node_content get_content {LLM} r.

(** ** [MultimodalQueryEngine] *)

(** [QA_PROMPT.format(context_str=..., query_str=...)]. *)
Definition QA_PROMPT (context_str query_str : string) : string :=
  "Below we give parsed text from slides in two different formats, as well as the image." +:+ PyStr.NL +:+
  PyStr.NL +:+
  "---------------------" +:+ PyStr.NL +:+
  context_str +:+ PyStr.NL +:+
  "---------------------" +:+ PyStr.NL +:+
  "Given the context information and not prior knowledge, answer the query. Explain whether you got the answer" +:+ PyStr.NL +:+
  "from the parsed markdown or raw text or image, and if there's discrepancies, and your reasoning for the final answer." +:+ PyStr.NL +:+
  PyStr.NL +:+
  "Query: " +:+ query_str +:+ PyStr.NL +:+
  "Answer: ".

(** The fields of an [ImageNode] that the engine sets. *)
Record ImageNode : Type := mkImageNode {
  image_path : option string
}.

Section QueryEngine.

(** Similarity scores, as the retriever reports them. *)
Variable Score : Type.

Record NodeWithScore (N : Type) : Type := mkNodeWithScore {
  node : N;
  score : option Score
}.
Arguments mkNodeWithScore {N} node score.
Arguments node {N} n.
Arguments score {N} n.

(** The [metadata] dictionary of a [Response]. *)
Record ResponseMetadata : Type := mkResponseMetadata {
  text_nodes : list (NodeWithScore TextNode);
  image_nodes : list (NodeWithScore ImageNode)
}.

Record Response : Type := mkResponse {
  response : string;
  source_nodes : list (NodeWithScore TextNode);
  response_metadata : ResponseMetadata
}.

(** The retrieval and generation services: a state [World], and each
    call a step on it.  [complete] returns the text of the completion,
    which is what [str(llm_response)] gives. *)
Variable World : Type.

Record MultimodalQueryEngine : Type := mkMultimodalQueryEngine {
  qa_prompt : string -> string -> string;
  retriever : World -> string -> list (NodeWithScore TextNode) * World;
  multi_modal_llm : World -> string -> list ImageNode -> string * World
}.

(** [__init__]: the default prompt stands in for a missing one. *)
Definition MultimodalQueryEngine_init
    (qa_prompt : option (string -> string -> string))
    (retriever : World -> string -> list (NodeWithScore TextNode) * World)
    (multi_modal_llm : World -> string -> list ImageNode -> string * World)
  : MultimodalQueryEngine :=
  mkMultimodalQueryEngine (default QA_PROMPT qa_prompt)
                          retriever multi_modal_llm.

Variable get_content : MetadataMode -> TextNode -> string.

(** [NodeWithScore(node=ImageNode(image_path=n.metadata["image_path"]))]:
    the key may be missing, and the field takes a string only. *)
Definition image_node_of (n : NodeWithScore TextNode)
  : result (NodeWithScore ImageNode) :=
  v ← dict_item "image_path" (metadata (node n));
  match v with
  | VStr p => mret (mkNodeWithScore (mkImageNode (Some p)) None)
  | VInt _ => Raise ValidationError
  end.

Definition custom_query (self : MultimodalQueryEngine) (query_str : string)
    (w : World) : result Response * World :=
  let '(nodes, w1) := retriever self w query_str in
  match mapM image_node_of nodes with
  | Raise e => (Raise e, w1)
  | Ok image_nodes =>
      let context_str :=
        PyStr.join (PyStr.NL +:+ PyStr.NL)
          (map (fun r => get_content MetadataMode_LLM (node r)) nodes) in
      let fmt_prompt := qa_prompt self context_str query_str in
      let '(llm_response, w2) :=
        multi_modal_llm self w1 fmt_prompt (map node image_nodes) in
      (Ok (mkResponse llm_response nodes
             (mkResponseMetadata nodes image_nodes)), w2)
  end.

End QueryEngine.

Arguments mkNodeWithScore {Score N} node score.
Arguments node {Score N} n.
Arguments score {Score N} n.
Arguments text_nodes {Score} r.
Arguments image_nodes {Score} r.
Arguments response {Score} r.
Arguments source_nodes {Score} r.
Arguments response_metadata {Score} r.
Arguments qa_prompt {Score World} m.
Arguments retriever {Score World} m.
Arguments multi_modal_llm {Score World} m.
Arguments custom_query {Score World} get_content self query_str w.
Arguments image_node_of {Score} n.

(** ** Sample inputs *)

Module Sample.

(** A page record with the text [md] (the other keys of the parser's
    record play no part). *)
Definition page (md : string) : page_dict := {[ "md" := VStr md ]}.

Definition two_pages : list page_dict := [page "first page"; page "second page"].

(** Two page images, listed out of order. *)
Definition two_images : Directory :=
  mkDirectory "data_images_iconiq"
    [mkDirEntry "doc-page_2.jpg" true; mkDirEntry "doc-page_1.jpg" true].

Definition one_image : Directory :=
  mkDirectory "data_images_iconiq" [mkDirEntry "doc-page_1.jpg" true].

(** Three page images for a two-page text list: page 1 has no image. *)
Definition three_images : Directory :=
  mkDirectory "data_images_iconiq"
    [mkDirEntry "doc-page_3.jpg" true; mkDirEntry "doc-page_2.jpg" true;
     mkDirEntry "doc-page_4.jpg" true].

(** A store with the two chunks of a two-page document, and the list of
    references to them. *)
Definition chunks : store :=
  [page_node 0 (mkPath "data_images_iconiq/doc-page_1.jpg" true)
             (VStr "first page");
   page_node 1 (mkPath "data_images_iconiq/doc-page_2.jpg" true)
             (VStr "second page")].

Definition chunk_refs : list ref := [0%nat; 1%nat].

(** A stand-in for the library's rendering of a node: the text of the
    page. *)
Definition get_content (mode : MetadataMode) (n : TextNode) : string :=
  match dict_get "parsed_text_markdown" (metadata n) with
  | Some (VStr md) => md
  | _ => text n
  end.

(** A generation stub: it counts the calls, and answers every request
    with the same assistant message. *)
Definition llm_chat (calls : nat) (req : ChatRequest) : ChatResponse * nat :=
  (mkChatResponse assistant "Page of the sample document.", S calls).

Definition initial_state : RunState nat := mkRunState chunks 0%nat [].

(** A retriever that returns the two chunks with scores, whatever the
    query, and a multimodal stub that answers with a fixed text. *)
Definition retriever (w : unit) (query_str : string)
  : list (NodeWithScore nat TextNode) * unit :=
  (map (fun n => mkNodeWithScore n (Some 1%nat)) (rev chunks), w).

Definition multi_modal_llm (w : unit) (prompt : string)
    (image_documents : list ImageNode) : string * unit :=
  ("The answer.", w).

Definition query_engine : MultimodalQueryEngine nat unit :=
  MultimodalQueryEngine_init nat unit None retriever multi_modal_llm.

(** ARABIC-INDIC DIGIT SEVEN, U+0667, in UTF-8. *)
Definition arabic_indic_seven : string :=
  String (ascii_of_nat 217) (String (ascii_of_nat 167) EmptyString).

End Sample.

(** * Properties *)

(** ** Strings *)

#[local] Arguments String.append !s1 s2 : simpl nomatch.

Section StringFacts.

Lemma app_assoc_str (a b c : string) : (a +:+ b) +:+ c = a +:+ (b +:+ c).
Proof. induction a as [|x a IH]; simpl; [reflexivity | now rewrite IH]. Qed.

Lemma strip_prefix_app (p s : string) :
  PyStr.strip_prefix p (p +:+ s) = Some s.
Proof.
  induction p as [|a p IH]; simpl; [now destruct s|].
  now rewrite Ascii.eqb_refl.
Qed.

Lemma strip_prefix_Some (p s r : string) :
  PyStr.strip_prefix p s = Some r -> s = p +:+ r.
Proof.
  revert s; induction p as [|a p IH]; intros s H.
  - destruct s; simpl in H; now inversion H.
  - destruct s as [|b s]; simpl in H; [discriminate|].
    destruct (Ascii.eqb_spec a b) as [->|]; [|discriminate].
    simpl; f_equal; now apply IH.
Qed.

Lemma has_char_app c (a b : string) :
  PyStr.has_char c (a +:+ b) = PyStr.has_char c a || PyStr.has_char c b.
Proof.
  induction a as [|x a IH]; simpl; [reflexivity|].
  now rewrite IH, orb_assoc.
Qed.

Lemma length_app_str (a b : string) :
  String.length (a +:+ b) = (String.length a + String.length b)%nat.
Proof. induction a as [|c a IH]; simpl; auto. Qed.

(** Induction on the length of a string. *)
Lemma string_length_ind (P : string -> Prop) :
  (forall s, (forall t, (String.length t < String.length s)%nat -> P t) -> P s) ->
  forall s, P s.
Proof.
  intros H s. remember (String.length s) as n eqn:Hn.
  revert s Hn. induction n as [n IH] using lt_wf_ind. intros s ->.
  apply H. intros t Ht. now apply (IH (String.length t)).
Qed.

Lemma is_cont_high (b : ascii) :
  PyStr.is_cont b = true -> (128 <= N_of_ascii b)%N.
Proof. unfold PyStr.is_cont. intros [H _]%andb_true_iff. now apply N.leb_le. Qed.

Lemma high_byte_differs (x b : ascii) :
  (N_of_ascii x < 128)%N -> (128 <= N_of_ascii b)%N -> Ascii.eqb x b = false.
Proof.
  intros Hx Hb. destruct (Ascii.eqb_spec x b) as [->|]; [lia | reflexivity].
Qed.

(** What [PyStr.utf8_head] splits off: a non-empty prefix that is read the same
    way whatever follows, and that is one ASCII byte or has no ASCII byte. *)
Lemma utf8_head_spec (s : string) (cp : N) (c r : string) :
  PyStr.utf8_head s = Some (cp, c, r) ->
  s = c +:+ r
  /\ (0 < String.length c)%nat
  /\ (forall t, PyStr.utf8_head (c +:+ t) = Some (cp, c, t))
  /\ ((exists b, c = String b EmptyString /\ cp = N_of_ascii b /\ (cp < 128)%N)
      \/ (forall x, (N_of_ascii x < 128)%N -> PyStr.has_char x c = false)).
Proof.
  unfold PyStr.utf8_head. destruct s as [|b0 r0]; [discriminate|]. cbv zeta.
  destruct (N_of_ascii b0 <? 128)%N eqn:H1.
  { intros [= <- <- <-]. repeat split; [simpl; lia | | left].
    - intros t. simpl. now rewrite H1.
    - exists b0. apply N.ltb_lt in H1. auto. }
  apply N.ltb_ge in H1.
  destruct (N_of_ascii b0 <? 194)%N eqn:H2; [discriminate|].
  destruct (N_of_ascii b0 <? 224)%N eqn:H3.
  { destruct r0 as [|b1 r1]; [discriminate|].
    destruct (PyStr.is_cont b1) eqn:C1; [|discriminate].
    intros [= <- <- <-]. repeat split; [simpl; lia | | right].
    - intros t. simpl.
      rewrite (proj2 (N.ltb_ge _ _) H1), H2, H3, C1. reflexivity.
    - intros x Hx. simpl.
      rewrite (high_byte_differs x b0 Hx H1),
              (high_byte_differs x b1 Hx (is_cont_high _ C1)). reflexivity. }
  destruct (N_of_ascii b0 <? 240)%N eqn:H4.
  { destruct r0 as [|b1 [|b2 r2]]; try discriminate.
    match goal with |- (if ?c then _ else _) = _ -> _ => destruct c eqn:C end;
      [|discriminate].
    intros [= <- <- <-].
    apply andb_true_iff in C as C'. destruct C' as [C' _].
    apply andb_true_iff in C' as [[C1 C2]%andb_true_iff _].
    repeat split; [simpl; lia | | right].
    - intros t. simpl.
      rewrite (proj2 (N.ltb_ge _ _) H1), H2, H3, H4. simpl in C. now rewrite C.
    - intros x Hx. simpl.
      rewrite (high_byte_differs x b0 Hx H1),
              (high_byte_differs x b1 Hx (is_cont_high _ C1)),
              (high_byte_differs x b2 Hx (is_cont_high _ C2)). reflexivity. }
  destruct (N_of_ascii b0 <? 245)%N eqn:H5; [|discriminate].
  destruct r0 as [|b1 [|b2 [|b3 r3]]]; try discriminate.
  match goal with |- (if ?c then _ else _) = _ -> _ => destruct c eqn:C end;
    [|discriminate].
  intros [= <- <- <-].
  apply andb_true_iff in C as C'. destruct C' as [C' _].
  apply andb_true_iff in C' as [[[C1 C2]%andb_true_iff C3]%andb_true_iff _].
  repeat split; [simpl; lia | | right].
  - intros t. simpl.
    rewrite (proj2 (N.ltb_ge _ _) H1), H2, H3, H4, H5. simpl in C. now rewrite C.
  - intros x Hx. simpl.
    rewrite (high_byte_differs x b0 Hx H1),
            (high_byte_differs x b1 Hx (is_cont_high _ C1)),
            (high_byte_differs x b2 Hx (is_cont_high _ C2)),
            (high_byte_differs x b3 Hx (is_cont_high _ C3)). reflexivity.
Qed.

Lemma digit_of_code_range (cp : N) (v : Z) :
  PyStr.digit_of_code cp = Some v -> 0 <= v <= 9.
Proof.
  unfold PyStr.digit_of_code.
  destruct (find _ PyStr.decimal_zeros) as [z|] eqn:Hf; [|discriminate].
  intros [= <-]. apply find_some in Hf as [_ Hz].
  apply andb_true_iff in Hz as [H1%N.leb_le H2%N.ltb_lt]. lia.
Qed.

(** Below 128 the decimal digits are the ASCII digits. *)
Lemma digit_of_code_ascii (cp : N) (v : Z) :
  (cp < 128)%N -> PyStr.digit_of_code cp = Some v -> (48 <= cp < 58)%N.
Proof.
  intros Hcp. unfold PyStr.digit_of_code.
  destruct (find _ PyStr.decimal_zeros) as [z|] eqn:Hf; [|discriminate].
  intros _. apply find_some in Hf as [Hin Hz].
  apply andb_true_iff in Hz as [H1%N.leb_le H2%N.ltb_lt].
  assert (Hz : z = 48%N \/ (128 <= z)%N).
  { revert Hin. unfold PyStr.decimal_zeros.
    repeat (intros [<- | Hin]; [first [now left | right; lia] | revert Hin]).
    intros []. }
  lia.
Qed.

Lemma decimal_digit_spec (s : string) (v : Z) (c r : string) :
  PyStr.decimal_digit s = Some (v, c, r) ->
  s = c +:+ r
  /\ (0 < String.length c)%nat
  /\ 0 <= v <= 9
  /\ (forall t, PyStr.decimal_digit (c +:+ t) = Some (v, c, t))
  /\ (forall x, PyStr.is_ascii_nondigit x = true -> PyStr.has_char x c = false).
Proof.
  unfold PyStr.decimal_digit.
  destruct (PyStr.utf8_head s) as [[[cp c'] r']|] eqn:Hu; [|discriminate].
  destruct (PyStr.digit_of_code cp) as [v'|] eqn:Hd; [|discriminate].
  intros [= <- <- <-].
  destruct (utf8_head_spec _ _ _ _ Hu) as (Hs & Hlen & Hstable & Hbytes).
  repeat split; auto.
  - now apply (digit_of_code_range cp).
  - now apply (digit_of_code_range cp).
  - intros t. now rewrite Hstable, Hd.
  - intros x Hx. unfold PyStr.is_ascii_nondigit in Hx.
    apply andb_true_iff in Hx as [Hlt%N.ltb_lt Hnd%negb_true_iff].
    destruct Hbytes as [(b & -> & -> & Hb) | Hhigh]; [|now apply Hhigh].
    simpl. rewrite orb_false_r.
    destruct (Ascii.eqb_spec x b) as [->|]; [|reflexivity].
    pose proof (digit_of_code_ascii _ _ Hb Hd) as [H1 H2].
    apply N.leb_le in H1. apply N.ltb_lt in H2. now rewrite H1, H2 in Hnd.
Qed.

Lemma decimal_digit_shorter (s : string) (v : Z) (c r : string) :
  PyStr.decimal_digit s = Some (v, c, r) -> (String.length r < String.length s)%nat.
Proof.
  intros (-> & Hlen & _)%decimal_digit_spec. rewrite length_app_str. lia.
Qed.

Lemma decimal_digit_empty : PyStr.decimal_digit EmptyString = None.
Proof. reflexivity. Qed.

Lemma scan_digits_fuel_enough (n m : nat) (s : string) :
  (String.length s <= n)%nat -> (String.length s <= m)%nat ->
  PyStr.scan_digits_fuel n s = PyStr.scan_digits_fuel m s.
Proof.
  revert m s; induction n as [|n IH]; intros m s Hn Hm.
  - destruct s; [|simpl in Hn; lia]. now destruct m.
  - destruct m as [|m].
    + destruct s; [|simpl in Hm; lia]. reflexivity.
    + simpl. destruct (PyStr.decimal_digit s) as [[[v c] r]|] eqn:Hd; [|reflexivity].
      apply decimal_digit_shorter in Hd.
      now rewrite (IH m r) by lia.
Qed.

Lemma scan_digits_eq (s : string) :
  PyStr.scan_digits s
  = match PyStr.decimal_digit s with
    | Some (v, c, r) =>
        let '(ds, rest) := PyStr.scan_digits r in ((c, v) :: ds, rest)
    | None => ([], s)
    end.
Proof.
  unfold PyStr.scan_digits. destruct (String.length s) as [|n] eqn:Hlen.
  - destruct s; [reflexivity | discriminate].
  - simpl. destruct (PyStr.decimal_digit s) as [[[v c] r]|] eqn:Hd; [|reflexivity].
    apply decimal_digit_shorter in Hd.
    now rewrite (scan_digits_fuel_enough n (String.length r) r) by lia.
Qed.

Lemma span_digits_eq (s : string) :
  PyStr.span_digits s
  = match PyStr.decimal_digit s with
    | Some (v, c, r) =>
        let '(ds, rest) := PyStr.span_digits r in (c +:+ ds, rest)
    | None => (EmptyString, s)
    end.
Proof.
  unfold PyStr.span_digits. rewrite scan_digits_eq.
  destruct (PyStr.decimal_digit s) as [[[v c] r]|]; [|reflexivity].
  now destruct (PyStr.scan_digits r).
Qed.

Lemma all_digits_eq (s : string) :
  PyStr.all_digits s
  = match PyStr.decimal_digit s with
    | Some (_, _, r) => PyStr.all_digits r
    | None => match s with EmptyString => true | String _ _ => false end
    end.
Proof.
  unfold PyStr.all_digits. rewrite scan_digits_eq.
  destruct (PyStr.decimal_digit s) as [[[v c] r]|]; [|reflexivity].
  now destruct (PyStr.scan_digits r).
Qed.

Lemma int_of_digits_eq (s : string) (acc : Z) :
  PyStr.int_acc acc (map snd (fst (PyStr.scan_digits s)))
  = match PyStr.decimal_digit s with
    | Some (v, _, r) => PyStr.int_acc (10 * acc + v) (map snd (fst (PyStr.scan_digits r)))
    | None => acc
    end.
Proof.
  rewrite scan_digits_eq.
  destruct (PyStr.decimal_digit s) as [[[v c] r]|]; [|reflexivity].
  now destruct (PyStr.scan_digits r).
Qed.

Lemma span_digits_app (ds rest : string) :
  PyStr.all_digits ds = true -> PyStr.starts_with_digit rest = false ->
  PyStr.span_digits (ds +:+ rest) = (ds, rest).
Proof.
  intros Hd Hr. revert Hd. induction ds as [ds IH] using string_length_ind.
  rewrite all_digits_eq.
  destruct (PyStr.decimal_digit ds) as [[[v c] r]|] eqn:Hc.
  - intros Hd.
    pose proof (decimal_digit_shorter _ _ _ _ Hc) as Hlt.
    destruct (decimal_digit_spec _ _ _ _ Hc) as (-> & _ & _ & Hstable & _).
    rewrite app_assoc_str, span_digits_eq, Hstable.
    now rewrite (IH r Hlt Hd).
  - destruct ds; [intros _|discriminate].
    change (EmptyString +:+ rest) with rest.
    rewrite span_digits_eq. unfold PyStr.starts_with_digit in Hr.
    now destruct (PyStr.decimal_digit rest).
Qed.

Lemma span_digits_spec (s ds rest : string) :
  PyStr.span_digits s = (ds, rest) ->
  s = ds +:+ rest /\ PyStr.all_digits ds = true
  /\ PyStr.starts_with_digit rest = false.
Proof.
  revert ds rest. induction s as [s IH] using string_length_ind.
  intros ds rest. rewrite span_digits_eq.
  destruct (PyStr.decimal_digit s) as [[[v c] r]|] eqn:Hc.
  - pose proof (decimal_digit_shorter _ _ _ _ Hc) as Hlt.
    destruct (decimal_digit_spec _ _ _ _ Hc) as (-> & _ & _ & Hstable & _).
    destruct (PyStr.span_digits r) as [ds' rest'] eqn:Hs. intros [= <- <-].
    destruct (IH r Hlt _ _ Hs) as (-> & Hd & Hrest).
    repeat split; [now rewrite app_assoc_str | | assumption].
    now rewrite all_digits_eq, Hstable.
  - intros [= <- <-]. repeat split.
    unfold PyStr.starts_with_digit. now rewrite Hc.
Qed.

Lemma digits_no_char c (ds : string) :
  PyStr.is_ascii_nondigit c = true -> PyStr.all_digits ds = true ->
  PyStr.has_char c ds = false.
Proof.
  intros Hc. induction ds as [ds IH] using string_length_ind.
  rewrite all_digits_eq.
  destruct (PyStr.decimal_digit ds) as [[[v d] r]|] eqn:Hd.
  - intros Hr.
    pose proof (decimal_digit_shorter _ _ _ _ Hd) as Hlt.
    destruct (decimal_digit_spec _ _ _ _ Hd) as (-> & _ & _ & _ & Hno).
    now rewrite has_char_app, (Hno c Hc), (IH r Hlt Hr).
  - now destruct ds.
Qed.

Lemma int_acc_nonneg (s : string) :
  forall acc, 0 <= acc -> 0 <= PyStr.int_acc acc (map snd (fst (PyStr.scan_digits s))).
Proof.
  induction s as [s IH] using string_length_ind. intros acc Hacc.
  rewrite int_of_digits_eq.
  destruct (PyStr.decimal_digit s) as [[[v c] r]|] eqn:Hd; [|assumption].
  pose proof (decimal_digit_shorter _ _ _ _ Hd) as Hlt.
  destruct (decimal_digit_spec _ _ _ _ Hd) as (_ & _ & Hv & _).
  apply (IH r Hlt). lia.
Qed.

Lemma at_dollar_cases (tail : string) :
  at_dollar tail = true -> tail = EmptyString \/ tail = PyStr.NL.
Proof.
  destruct tail as [|c [|d t]]; simpl; auto; [|discriminate].
  intros ->%Ascii.eqb_eq; auto.
Qed.

End StringFacts.

(** ** The regular expression of [get_page_number] *)

Example get_page_number_abc : get_page_number "abc-page_7.jpg" = 7.
Proof. reflexivity. Qed.

Example get_page_number_no_match : get_page_number "no_match.png" = 0.
Proof. reflexivity. Qed.

Example get_page_number_second_offset :
  get_page_number "x-page_1-page_12.jpg" = 12.
Proof. reflexivity. Qed.

Example get_page_number_leading_zeros : get_page_number "a-page_007.jpg" = 7.
Proof. reflexivity. Qed.

Example get_page_number_no_digits : get_page_number "-page_.jpg" = 0.
Proof. reflexivity. Qed.

Example get_page_number_not_at_end : get_page_number "a-page_7.jpgx" = 0.
Proof. reflexivity. Qed.

Example get_page_number_two_newlines :
  get_page_number ("abc-page_7.jpg" +:+ PyStr.NL +:+ PyStr.NL) = 0.
Proof. reflexivity. Qed.

Example child_path_cases :
  child_path "." "x.jpg" = "x.jpg" /\ child_path "/" "x.jpg" = "/x.jpg"
  /\ child_path "a" "x.jpg" = "a/x.jpg".
Proof. repeat split. Qed.

Example sorted_is_stable :
  sorted (fun s => PyStr.int_of_digits s) ["2"; "01"; "1"; "0"]
  = ["0"; "01"; "1"; "2"].
Proof. reflexivity. Qed.

Example get_page_number_arabic_indic_digit :
  get_page_number ("abc-page_" +:+ Sample.arabic_indic_seven +:+ ".jpg") = 7.
Proof. reflexivity. Qed.

Example get_page_number_mixed_digits :
  get_page_number ("abc-page_1" +:+ Sample.arabic_indic_seven +:+ ".jpg") = 17.
Proof. reflexivity. Qed.

Example get_page_number_final_newline :
  get_page_number ("abc-page_7.jpg" +:+ PyStr.NL) = 7.
Proof. reflexivity. Qed.


Section PageNumber.

(** A match at the head of [s] spells out [s]. *)
Lemma match_here_Some (s ds : string) :
  match_here s = Some ds ->
  exists tail, s = "-page_" +:+ ds +:+ ".jpg" +:+ tail
               /\ at_dollar tail = true
               /\ PyStr.all_digits ds = true /\ ds <> EmptyString.
Proof.
  unfold match_here; intros H.
  destruct (PyStr.strip_prefix "-page_" s) as [r|] eqn:Hp; [|discriminate].
  destruct (PyStr.span_digits r) as [d rest] eqn:Hs.
  destruct d as [|c d]; [discriminate|].
  destruct (PyStr.strip_prefix ".jpg" rest) as [tail|] eqn:Hj; [|discriminate].
  destruct (at_dollar tail) eqn:Ht; [|discriminate].
  inversion H; subst ds; clear H.
  apply strip_prefix_Some in Hp, Hj.
  apply span_digits_spec in Hs as (Hr & Hd & _).
  exists tail; subst; repeat split; auto; discriminate.
Qed.

Lemma match_here_complete (ds tail : string) :
  PyStr.all_digits ds = true -> ds <> EmptyString -> at_dollar tail = true ->
  match_here ("-page_" +:+ ds +:+ ".jpg" +:+ tail) = Some ds.
Proof.
  intros Hd Hne Ht; unfold match_here.
  rewrite strip_prefix_app.
  rewrite (span_digits_app ds (".jpg" +:+ tail) Hd eq_refl).
  destruct ds as [|c ds]; [congruence|].
  now rewrite strip_prefix_app, Ht.
Qed.

(** What a match covers has its only hyphen in front. *)
Lemma match_here_no_later_hyphen c (s ds : string) :
  match_here (String c s) = Some ds -> PyStr.has_char "-" s = false.
Proof.
  intros (tail & Hs & Ht & Hd & _)%match_here_Some.
  simpl in Hs; inversion Hs; subst; clear Hs.
  change (PyStr.has_char "-" ("page_" +:+ ds +:+ ".jpg" +:+ tail) = false).
  rewrite !has_char_app, (digits_no_char "-" ds eq_refl Hd).
  destruct (at_dollar_cases _ Ht) as [-> | ->]; reflexivity.
Qed.

Lemma re_search_eq (s : string) :
  re_search s =
  match match_here s with
  | Some g => Some g
  | None => match s with
            | EmptyString => None
            | String _ s' => re_search s'
            end
  end.
Proof. destruct s; reflexivity. Qed.

Lemma re_search_complete (pre ds tail : string) :
  PyStr.all_digits ds = true -> ds <> EmptyString -> at_dollar tail = true ->
  re_search (pre +:+ "-page_" +:+ ds +:+ ".jpg" +:+ tail) = Some ds.
Proof.
  intros Hd Hne Ht; induction pre as [|c pre IH].
  - change (EmptyString +:+ ?x) with x.
    now rewrite re_search_eq, (match_here_complete ds tail Hd Hne Ht).
  - change (String c pre +:+ ?x) with (String c (pre +:+ x)).
    rewrite re_search_eq.
    destruct (match_here (String c _)) as [g|] eqn:Hm; [|exact IH].
    apply match_here_no_later_hyphen in Hm.
    rewrite has_char_app in Hm. apply orb_false_iff in Hm as [_ Hm].
    discriminate Hm.
Qed.

Lemma re_search_Some (s ds : string) :
  re_search s = Some ds ->
  exists pre tail, s = pre +:+ "-page_" +:+ ds +:+ ".jpg" +:+ tail
                   /\ at_dollar tail = true
                   /\ PyStr.all_digits ds = true /\ ds <> EmptyString.
Proof.
  induction s as [|c s IH]; cbn [re_search].
  - destruct (match_here EmptyString) eqn:Hm; [discriminate | discriminate].
  - destruct (match_here (String c s)) as [g|] eqn:Hm.
    + intros [= ->]. apply match_here_Some in Hm as (tail & ? & ? & ? & ?).
      exists EmptyString, tail; auto.
    + intros (pre & tail & -> & ? & ? & ?)%IH.
      exists (String c pre), tail; auto.
Qed.

End PageNumber.

(** ** [get_page_number] *)

Section GetPageNumber.

Lemma ends_with_app (a suf : string) : PyStr.ends_with suf (a +:+ suf) = true.
Proof.
  induction a as [|c a IH]; simpl.
  - destruct suf as [|x suf]; [reflexivity|].
    unfold PyStr.ends_with; fold PyStr.ends_with.
    now rewrite String.eqb_refl.
  - unfold PyStr.ends_with; fold PyStr.ends_with.
    rewrite IH. apply orb_true_r.
Qed.

Lemma page_pattern_ends_with (s ds : string) :
  ends_with_page_pattern s ds -> PyStr.ends_with ".jpg" s = true.
Proof.
  intros (_ & _ & pre & ->).
  rewrite <- !app_assoc_str. apply ends_with_app.
Qed.

Lemma get_page_number_match (pre ds tail : string) :
  PyStr.all_digits ds = true -> ds <> EmptyString -> at_dollar tail = true ->
  get_page_number (pre +:+ "-page_" +:+ ds +:+ ".jpg" +:+ tail)
  = PyStr.int_of_digits ds.
Proof.
  intros Hd Hne Ht. unfold get_page_number.
  now rewrite (re_search_complete pre ds tail Hd Hne Ht).
Qed.

Lemma get_page_number_nonzero (s : string) :
  get_page_number s <> 0 ->
  exists pre ds tail,
    s = pre +:+ "-page_" +:+ ds +:+ ".jpg" +:+ tail
    /\ at_dollar tail = true /\ PyStr.all_digits ds = true
    /\ ds <> EmptyString /\ get_page_number s = PyStr.int_of_digits ds.
Proof.
  unfold get_page_number. destruct (re_search s) as [ds|] eqn:Hs; [|congruence].
  intros _. apply re_search_Some in Hs as (pre & tail & ? & ? & ? & ?).
  exists pre, ds, tail; auto.
Qed.

End GetPageNumber.

(** C4, as stated, fails: a name that ends in a line feed after
    ["-page_7.jpg"] does not end with the pattern, and yet the regular
    expression's [$] accepts it: the result is 7, not the sentinel 0. *)
Lemma get_page_number_final_newline_not_sentinel :
  (forall ds, ~ ends_with_page_pattern ("abc-page_7.jpg" +:+ PyStr.NL) ds)
  /\ get_page_number ("abc-page_7.jpg" +:+ PyStr.NL) = 7.
Proof.
  split; [|reflexivity].
  intros ds H%page_pattern_ends_with. discriminate H.
Qed.

(** C4 (amended): for every file-name string, [get_page_number] returns the
    integer [<digits>] when the name ends with ["-page_<digits>.jpg"], and
    also when it ends with that pattern followed by one final line feed;
    it returns the sentinel 0 when neither the name, nor the name without
    a final line feed, ends with the pattern.  [<digits>] is a non-empty
    run of decimal digits as [\d] reads them: the ASCII digits and the
    decimal digits of the other scripts. *)
Theorem get_page_number_spec (file_name : string) :
  (forall ds, ends_with_page_pattern file_name ds ->
     get_page_number file_name = PyStr.int_of_digits ds
     /\ get_page_number (file_name +:+ PyStr.NL) = PyStr.int_of_digits ds)
  /\ ((forall ds, ~ ends_with_page_pattern file_name ds) ->
      (forall ds stem, file_name = stem +:+ PyStr.NL ->
                       ~ ends_with_page_pattern stem ds) ->
      get_page_number file_name = 0).
Proof.
  split.
  - intros ds (Hne & Hd & pre & ->). split.
    + rewrite <- (get_page_number_match pre ds EmptyString Hd Hne eq_refl).
      f_equal.
    + rewrite <- (get_page_number_match pre ds PyStr.NL Hd Hne eq_refl).
      now rewrite !app_assoc_str.
  - intros Hno Hno_nl.
    destruct (Z.eq_dec (get_page_number file_name) 0) as [|Hnz]; [assumption|].
    exfalso.
    apply get_page_number_nonzero in Hnz
      as (pre & ds & tail & -> & Ht & Hd & Hne & _).
    destruct (at_dollar_cases _ Ht) as [-> | ->].
    + apply (Hno ds). repeat split; auto. now exists pre.
    + apply (Hno_nl ds (pre +:+ "-page_" +:+ ds +:+ ".jpg")).
      * now rewrite !app_assoc_str.
      * repeat split; auto. now exists pre.
Qed.

Lemma get_page_number_spec_witness :
  get_page_number "abc-page_7.jpg" = 7
  /\ get_page_number "no_match.png" = 0
  /\ get_page_number ("abc-page_" +:+ Sample.arabic_indic_seven +:+ ".jpg")
     = 7.
Proof.
  split; [|split].
  - apply (proj1 (get_page_number_spec "abc-page_7.jpg") "7").
    repeat split; [discriminate | now exists "abc"].
  - apply (proj2 (get_page_number_spec "no_match.png")).
    + intros ds H%page_pattern_ends_with. discriminate H.
    + intros ds stem H. apply (f_equal (PyStr.ends_with PyStr.NL)) in H.
      rewrite ends_with_app in H. discriminate H.
  - apply (proj1 (get_page_number_spec
                    ("abc-page_" +:+ Sample.arabic_indic_seven +:+ ".jpg"))
                 Sample.arabic_indic_seven).
    repeat split; [discriminate | now exists "abc"].
Defined.

(** ** [sorted] *)

Section SortedFacts.
Context {A : Type} (key : A -> Z).

Lemma insert_by_Permutation (x : A) (l : list A) :
  insert_by key x l ≡ₚ x :: l.
Proof.
  induction l as [|y l IH]; simpl; [reflexivity|].
  destruct (key x <=? key y); [reflexivity|].
  rewrite IH. apply Permutation_swap.
Qed.

Lemma sorted_Permutation (l : list A) : sorted key l ≡ₚ l.
Proof.
  induction l as [|x l IH]; simpl; [reflexivity|].
  now rewrite insert_by_Permutation, IH.
Qed.

Lemma insert_by_HdRel (x y : A) (l : list A) :
  key y <= key x -> HdRel Z.le (key y) (map key l) ->
  HdRel Z.le (key y) (map key (insert_by key x l)).
Proof.
  intros Hyx Hl. destruct l as [|z l]; simpl; [now constructor|].
  destruct (key x <=? key z); simpl; constructor; auto.
  now inversion Hl.
Qed.

Lemma insert_by_Sorted (x : A) (l : list A) :
  Sorted Z.le (map key l) -> Sorted Z.le (map key (insert_by key x l)).
Proof.
  induction l as [|y l IH]; simpl; intros Hs.
  - repeat constructor.
  - inversion Hs as [|? ? Hs' Hhd]; subst.
    destruct (Z.leb_spec (key x) (key y)); simpl.
    + constructor; [assumption | now constructor].
    + constructor; [now apply IH | apply insert_by_HdRel; auto; lia].
Qed.

Lemma sorted_Sorted (l : list A) : Sorted Z.le (map key (sorted key l)).
Proof.
  induction l as [|x l IH]; simpl; [constructor | now apply insert_by_Sorted].
Qed.

Lemma sorted_length (l : list A) : length (sorted key l) = length l.
Proof. apply Permutation_length, sorted_Permutation. Qed.

Lemma elem_of_sorted (x : A) (l : list A) : x ∈ sorted key l <-> x ∈ l.
Proof. now rewrite sorted_Permutation. Qed.

(** Equal keys keep the order they came in. *)
Lemma sorted_stable (k : Z) (l : list A) :
  List.filter (fun x => key x =? k) (sorted key l)
  = List.filter (fun x => key x =? k) l.
Proof.
  induction l as [|x l IH]; simpl; [reflexivity|].
  rewrite <- IH. generalize (sorted key l) as s. clear IH.
  induction s as [|y s IHs]; simpl; [reflexivity|].
  destruct (Z.leb_spec (key x) (key y)); simpl; [reflexivity|].
  rewrite IHs.
  destruct (Z.eqb_spec (key x) k), (Z.eqb_spec (key y) k);
    try reflexivity; lia.
Qed.

Lemma Sorted_page_range (start n : nat) :
  Sorted Z.le (map Z.of_nat (seq start n)).
Proof.
  revert start; induction n as [|n IH]; intros start; simpl.
  - constructor.
  - constructor; [apply IH|].
    destruct n; simpl; constructor; lia.
Qed.

(** Keys that are the numbers [1..n] in some order come out as
    [1, 2, ..., n]. *)
Lemma sorted_keys_page_range (l : list A) (n : nat) :
  map key l ≡ₚ map Z.of_nat (seq 1 n) ->
  map key (sorted key l) = map Z.of_nat (seq 1 n).
Proof.
  intros Hp.
  apply (Sorted_unique_strong Z.le).
  - intros; lia.
  - apply sorted_Sorted.
  - apply Sorted_page_range.
  - now rewrite sorted_Permutation.
Qed.

End SortedFacts.

(** ** Substrings *)

Section ContainsFacts.

Lemma contains_eq (p s : string) :
  PyStr.contains p s =
  match PyStr.strip_prefix p s with
  | Some _ => true
  | None => match s with
            | EmptyString => false
            | String _ s' => PyStr.contains p s'
            end
  end.
Proof. destruct s; reflexivity. Qed.

Lemma contains_intro (pre p rest : string) :
  PyStr.contains p (pre +:+ p +:+ rest) = true.
Proof.
  induction pre as [|c pre IH].
  - change (EmptyString +:+ ?x) with x.
    now rewrite contains_eq, strip_prefix_app.
  - change (String c pre +:+ ?x) with (String c (pre +:+ x)).
    rewrite contains_eq, IH. now destruct (PyStr.strip_prefix _ _).
Qed.

(** A pattern without the character [c] starts in [a ++ c ++ b] where
    it starts in [a]. *)
Lemma strip_prefix_sep (c : ascii) (p a b : string) :
  PyStr.has_char c p = false ->
  is_Some (PyStr.strip_prefix p (a +:+ String c b))
  <-> is_Some (PyStr.strip_prefix p a).
Proof.
  revert a; induction p as [|y p IH]; intros a Hc.
  - destruct a; simpl; split; eauto.
  - simpl in Hc. apply orb_false_iff in Hc as [Hcy Hc].
    destruct a as [|x a]; simpl.
    + rewrite Ascii.eqb_sym, Hcy. split; intros [? ?]; discriminate.
    + destruct (Ascii.eqb y x); [now apply IH|]. reflexivity.
Qed.

Lemma contains_sep (c : ascii) (p a b : string) :
  PyStr.has_char c p = false ->
  PyStr.contains p (a +:+ String c b)
  = PyStr.contains p a || PyStr.contains p b.
Proof.
  intros Hc. induction a as [|x a IH].
  - change (EmptyString +:+ ?s) with s.
    rewrite (contains_eq p (String c b)), (contains_eq p EmptyString).
    pose proof (strip_prefix_sep c p EmptyString b Hc) as Hs.
    change (EmptyString +:+ ?s) with s in Hs.
    destruct (PyStr.strip_prefix p (String c b)) as [r|] eqn:H1,
             (PyStr.strip_prefix p EmptyString) as [r'|] eqn:H2;
      try reflexivity.
    + destruct (proj1 Hs (mk_is_Some _ _ eq_refl)); discriminate.
    + destruct (proj2 Hs (mk_is_Some _ _ eq_refl)); discriminate.
  - change (String x a +:+ ?s) with (String x (a +:+ s)).
    rewrite (contains_eq p (String x (a +:+ String c b))),
            (contains_eq p (String x a)), IH.
    pose proof (strip_prefix_sep c p (String x a) b Hc) as Hs.
    change (String x a +:+ ?s) with (String x (a +:+ s)) in Hs.
    destruct (PyStr.strip_prefix p (String x (a +:+ String c b))) eqn:H1,
             (PyStr.strip_prefix p (String x a)) eqn:H2;
      try reflexivity.
    + destruct (proj1 Hs (mk_is_Some _ _ eq_refl)); discriminate.
    + destruct (proj2 Hs (mk_is_Some _ _ eq_refl)); discriminate.
Qed.

Lemma ends_with_inv (suf s : string) :
  PyStr.ends_with suf s = true -> exists a, s = a +:+ suf.
Proof.
  induction s as [|c s IH]; unfold PyStr.ends_with; fold PyStr.ends_with.
  - rewrite orb_false_r. intros ->%String.eqb_eq. now exists EmptyString.
  - intros [->%String.eqb_eq | H]%orb_true_iff.
    + now exists EmptyString.
    + destruct (IH H) as [a ->]. now exists (String c a).
Qed.

(** In the path of a child, ["-page"] lies in the directory part or in
    the name: it can not run across the separator. *)
Lemma contains_page_child_path (d name : string) :
  PyStr.contains "-page" d = false ->
  PyStr.contains "-page" (child_path d name) = PyStr.contains "-page" name.
Proof.
  intros Hd. unfold child_path.
  destruct (String.eqb d "."); [reflexivity|].
  destruct (PyStr.ends_with "/" d) eqn:He.
  - apply ends_with_inv in He as [a ->].
    rewrite app_assoc_str. change ("/" +:+ name) with (String "/" name).
    rewrite contains_sep by reflexivity.
    change "/"%string with (String "/" EmptyString) in Hd.
    rewrite contains_sep in Hd by reflexivity.
    apply orb_false_iff in Hd as [-> _]. reflexivity.
  - change ("/" +:+ name) with (String "/" name).
    rewrite contains_sep by reflexivity. now rewrite Hd.
Qed.

(** A file name with a page number carries the ["-page"] marker. *)
Lemma page_number_contains_page (s : string) :
  get_page_number s <> 0 -> PyStr.contains "-page" s = true.
Proof.
  intros (pre & ds & tail & -> & _)%get_page_number_nonzero.
  change ("-page_" +:+ ?x) with ("-page" +:+ "_" +:+ x).
  apply contains_intro.
Qed.

End ContainsFacts.

(** ** [_get_sorted_image_files] *)

Section ImageFiles.

Lemma elem_of_raw_files (image_dir : Directory) (f : Path) :
  f ∈ raw_files image_dir
  <-> f ∈ iterdir image_dir /\ is_file f = true
      /\ PyStr.contains "-page" (path_str f) = true.
Proof.
  unfold raw_files. rewrite !list_elem_of_In, filter_In, andb_true_iff.
  reflexivity.
Qed.

Lemma elem_of_iterdir (image_dir : Directory) (f : Path) :
  f ∈ iterdir image_dir
  <-> exists e, e ∈ dir_entries image_dir
                /\ f = mkPath (child_path (dir_path image_dir) (entry_name e))
                              (entry_is_file e).
Proof.
  unfold iterdir. rewrite list_elem_of_In, in_map_iff.
  split; intros (e & H1 & H2).
  - exists e. rewrite list_elem_of_In. auto.
  - exists e. rewrite list_elem_of_In in H1. auto.
Qed.

End ImageFiles.

(** C9, as stated, fails: in a directory whose own path contains
    ["-page"], the regular file ["no_match.png"] passes the filter, enters
    the pairing list, and has the sentinel page number 0. *)
Lemma sorted_image_files_marker_in_directory_path :
  _get_sorted_image_files
    (mkDirectory "scans-pages" [mkDirEntry "no_match.png" true])
  = [mkPath "scans-pages/no_match.png" true]
  /\ PyStr.contains "-page" "no_match.png" = false
  /\ page_key (mkPath "scans-pages/no_match.png" true) = 0.
Proof. repeat split. Qed.

(** C9 (amended): for every image directory, [_get_sorted_image_files]
    puts a file in the pairing list exactly when it is a regular file whose
    path string (the directory path joined with the file name) contains
    ["-page"].  For a directory whose own path does not contain ["-page"],
    these are the regular files whose name contains ["-page"]: any other
    file (e.g. ["no_match.png"]) is left out of the pairing. *)
Theorem sorted_image_files_membership (image_dir : Directory) (f : Path) :
  (f ∈ _get_sorted_image_files image_dir
   <-> f ∈ iterdir image_dir /\ is_file f = true
       /\ PyStr.contains "-page" (path_str f) = true)
  /\ (PyStr.contains "-page" (dir_path image_dir) = false ->
      (f ∈ _get_sorted_image_files image_dir
       <-> exists e, e ∈ dir_entries image_dir
                     /\ f = mkPath (child_path (dir_path image_dir)
                                               (entry_name e)) true
                     /\ entry_is_file e = true
                     /\ PyStr.contains "-page" (entry_name e) = true)).
Proof.
  assert (Hmem : f ∈ _get_sorted_image_files image_dir
                 <-> f ∈ iterdir image_dir /\ is_file f = true
                     /\ PyStr.contains "-page" (path_str f) = true).
  { unfold _get_sorted_image_files. cbv zeta.
    now rewrite elem_of_sorted, elem_of_raw_files. }
  split; [exact Hmem|].
  intros Hd. rewrite Hmem, elem_of_iterdir. split.
  - intros ((e & He & ->) & Hf & Hc). simpl in Hf, Hc.
    rewrite (contains_page_child_path _ _ Hd) in Hc.
    exists e. rewrite Hf. auto.
  - intros (e & He & -> & Hf & Hc). simpl. repeat split.
    + exists e. rewrite Hf. auto.
    + now rewrite (contains_page_child_path _ _ Hd).
Qed.

Lemma sorted_image_files_membership_witness :
  let image_dir :=
    mkDirectory "data_images_iconiq"
      [mkDirEntry "no_match.png" true; mkDirEntry "abc-page_7.jpg" true] in
  (mkPath "data_images_iconiq/no_match.png" true
     ∉ _get_sorted_image_files image_dir)
  /\ (mkPath "data_images_iconiq/abc-page_7.jpg" true
        ∈ _get_sorted_image_files image_dir).
Proof.
  intros image_dir. split.
  - intros H.
    apply (proj2 (sorted_image_files_membership image_dir _) eq_refl) in H
      as (e & He & Hf & _ & Hc).
    apply list_elem_of_In in He. simpl in He.
    destruct He as [<- | [<- | []]]; simpl in *; discriminate.
  - apply (proj2 (sorted_image_files_membership image_dir _) eq_refl).
    exists (mkDirEntry "abc-page_7.jpg" true). repeat split.
    apply list_elem_of_In. simpl. auto.
Defined.

(** ** [get_text_nodes] *)

Section TextNodes.

Lemma text_node_at_Ok (image_files : list Path) (md_texts : list Value)
    (idx : nat) (image_file : Path) (md : Value) :
  image_files !! idx = Some image_file -> md_texts !! idx = Some md ->
  text_node_at image_files md_texts idx = Ok (page_node idx image_file md).
Proof.
  intros Hi Hm. unfold text_node_at, list_index. rewrite Hi, Hm. reflexivity.
Qed.

Lemma text_node_at_IndexError (image_files : list Path)
    (md_texts : list Value) (idx : nat) :
  image_files !! idx = None ->
  text_node_at image_files md_texts idx = Raise IndexError.
Proof.
  intros Hi. unfold text_node_at, list_index. rewrite Hi. reflexivity.
Qed.

(** The loop, started at index [k] on the texts from [k] on. *)
Lemma text_nodes_loop_spec (image_files : list Path) (md_texts : list Value) :
  forall (l : list Value) (k : nat) (nodes : list TextNode),
    l = drop k md_texts -> (k <= length image_files)%nat ->
    text_nodes_loop image_files md_texts (enumerate_from k l) nodes
    = if decide (k + length l <= length image_files)%nat
      then Ok (nodes ++ page_nodes k (drop k image_files) l)
      else Raise IndexError.
Proof.
  induction l as [|md l IH]; intros k nodes Hl Hk; simpl.
  - rewrite decide_True by lia.
    destruct (drop k image_files); now rewrite app_nil_r.
  - assert (Hmd : md_texts !! k = Some md).
    { rewrite <- (Nat.add_0_r k), <- lookup_drop, <- Hl. reflexivity. }
    assert (Hl' : l = drop (S k) md_texts).
    { rewrite (drop_S _ _ _ Hmd) in Hl. now inversion Hl. }
    destruct (image_files !! k) as [image_file|] eqn:Hi.
    + rewrite (text_node_at_Ok _ _ _ _ _ Hi Hmd). simpl.
      apply lookup_lt_Some in Hi as Hlt.
      rewrite (IH (S k) _ Hl') by lia.
      rewrite (drop_S _ _ _ Hi). simpl.
      repeat case_decide; try lia; try reflexivity.
      now rewrite <- app_assoc.
    + rewrite (text_node_at_IndexError _ _ _ Hi). simpl.
      apply lookup_ge_None in Hi. now rewrite decide_False by lia.
Qed.

Lemma mapM_result_cons {A B} (f : A -> result B) (x : A) (l : list A) :
  mapM f (x :: l)
  = match f x with
    | Ok y => match mapM f l with
              | Ok k => Ok (y :: k)
              | Raise e => Raise e
              end
    | Raise e => Raise e
    end.
Proof. reflexivity. Qed.

Lemma mapM_page_item (json_dicts : list page_dict) (md_texts : list Value) :
  Forall2 (fun d v => d !! "md" = Some v) json_dicts md_texts ->
  mapM (page_item "md") json_dicts = Ok md_texts.
Proof.
  induction 1 as [|d v ds vs Hd _ IH]; [reflexivity|].
  rewrite mapM_result_cons, IH. unfold page_item. now rewrite Hd.
Qed.

Lemma mapM_page_item_inv (json_dicts : list page_dict) (md_texts : list Value) :
  mapM (page_item "md") json_dicts = Ok md_texts ->
  Forall2 (fun d v => d !! "md" = Some v) json_dicts md_texts.
Proof.
  revert md_texts; induction json_dicts as [|d ds IH]; intros vs H.
  - inversion H. constructor.
  - rewrite mapM_result_cons in H. unfold page_item at 1 in H.
    destruct (d !! "md") as [v|] eqn:Hd; [|discriminate].
    destruct (mapM (page_item "md") ds) as [vs'|] eqn:Hm; [|discriminate].
    inversion H; subst. constructor; auto.
Qed.

Lemma page_dicts_md_texts (json_dicts : list page_dict) :
  Forall (fun d => is_Some (d !! "md")) json_dicts ->
  exists md_texts, Forall2 (fun d v => d !! "md" = Some v) json_dicts md_texts.
Proof.
  induction 1 as [|d ds [v Hv] _ [vs IH]]; [exists []; constructor|].
  exists (v :: vs). now constructor.
Qed.

(** What [get_text_nodes] returns, once every page record has its text. *)
Lemma get_text_nodes_spec (image_dir : Directory) (json_dicts : list page_dict)
    (md_texts : list Value) :
  Forall2 (fun d v => d !! "md" = Some v) json_dicts md_texts ->
  get_text_nodes image_dir json_dicts
  = if decide (length md_texts <= length (_get_sorted_image_files image_dir))%nat
    then Ok (page_nodes 0 (_get_sorted_image_files image_dir) md_texts)
    else Raise IndexError.
Proof.
  intros Hmd. unfold get_text_nodes. cbv zeta.
  rewrite (mapM_page_item _ _ Hmd). simpl. unfold enumerate.
  rewrite (text_nodes_loop_spec _ md_texts md_texts 0 []) by (auto; lia).
  reflexivity.
Qed.

Lemma get_text_nodes_Ok_inv (image_dir : Directory)
    (json_dicts : list page_dict) (nodes : list TextNode) :
  get_text_nodes image_dir json_dicts = Ok nodes ->
  exists md_texts,
    Forall2 (fun d v => d !! "md" = Some v) json_dicts md_texts
    /\ (length md_texts <= length (_get_sorted_image_files image_dir))%nat
    /\ nodes = page_nodes 0 (_get_sorted_image_files image_dir) md_texts.
Proof.
  intros H.
  destruct (mapM (page_item "md") json_dicts) as [md_texts|e] eqn:Hm.
  - apply mapM_page_item_inv in Hm.
    rewrite (get_text_nodes_spec _ _ _ Hm) in H.
    case_decide; [|discriminate]. inversion H. eauto.
  - unfold get_text_nodes in H. cbv zeta in H. rewrite Hm in H. discriminate.
Qed.

Lemma page_nodes_length (k : nat) (image_files : list Path)
    (md_texts : list Value) :
  length (page_nodes k image_files md_texts)
  = Nat.min (length image_files) (length md_texts).
Proof.
  revert k md_texts; induction image_files as [|f fs IH]; intros k [|v vs];
    simpl; auto.
Qed.

Lemma page_nodes_lookup (k i : nat) (image_files : list Path)
    (md_texts : list Value) (image_file : Path) (md : Value) :
  image_files !! i = Some image_file -> md_texts !! i = Some md ->
  page_nodes k image_files md_texts !! i = Some (page_node (k + i) image_file md).
Proof.
  revert k i md_texts; induction image_files as [|f fs IH];
    intros k i [|v vs] Hf Hv; try discriminate.
  destruct i as [|i]; simpl in *.
  - inversion Hf; inversion Hv; subst. now rewrite Nat.add_0_r.
  - rewrite (IH (S k) i vs Hf Hv). do 2 f_equal. lia.
Qed.

Lemma page_nodes_Forall (P : TextNode -> Prop) (k : nat)
    (image_files : list Path) (md_texts : list Value) :
  (forall idx f v, P (page_node idx f v)) ->
  Forall P (page_nodes k image_files md_texts).
Proof.
  intros HP. revert k md_texts; induction image_files as [|f fs IH];
    intros k [|v vs]; simpl; constructor; auto.
Qed.

End TextNodes.

(** C1: when every page record has its text and the regular files of the
    image directory carry exactly the page numbers [1..n], [n] the number
    of page records, [get_text_nodes] returns one chunk per page, and
    chunk [i] has [page_num = i + 1], the text of page [i], and the path
    of the [i]-th image by page number, whose file name encodes that same
    number [i + 1]. *)
Theorem get_text_nodes_page_num_matches_image
    (image_dir : Directory) (json_dicts : list page_dict) :
  Forall (fun d => is_Some (d !! "md")) json_dicts ->
  map page_key (List.filter is_file (iterdir image_dir))
    ≡ₚ map Z.of_nat (seq 1 (length json_dicts)) ->
  exists nodes,
    get_text_nodes image_dir json_dicts = Ok nodes
    /\ length nodes = length json_dicts
    /\ forall i d, json_dicts !! i = Some d ->
         exists node image_file,
           nodes !! i = Some node
           /\ _get_sorted_image_files image_dir !! i = Some image_file
           /\ dict_get "page_num" (metadata node) = Some (VInt (Z.of_nat i + 1))
           /\ dict_get "image_path" (metadata node)
              = Some (VStr (path_str image_file))
           /\ dict_get "parsed_text_markdown" (metadata node) = d !! "md"
           /\ get_page_number (path_str image_file) = Z.of_nat i + 1.
Proof.
  intros Hmd Hperm.
  destruct (page_dicts_md_texts _ Hmd) as [md_texts Hmds].
  pose proof (Forall2_length _ _ _ Hmds) as Hlen.
  set (n := length json_dicts) in *.
  (* every regular file has a page number, hence the marker *)
  assert (Hraw : raw_files image_dir = List.filter is_file (iterdir image_dir)).
  { unfold raw_files. apply filter_ext_in. intros f Hin.
    destruct (is_file f) eqn:Hf; [simpl | reflexivity].
    apply page_number_contains_page.
    assert (Hk : page_key f ∈ map Z.of_nat (seq 1 n)).
    { rewrite <- Hperm. apply list_elem_of_In, in_map, filter_In. auto. }
    apply list_elem_of_In, in_map_iff in Hk as (m & Hm & Hin').
    apply in_seq in Hin'. unfold page_key in Hm. lia. }
  assert (Hkeys : map page_key (_get_sorted_image_files image_dir)
                  = map Z.of_nat (seq 1 n)).
  { unfold _get_sorted_image_files. cbv zeta. rewrite Hraw.
    now apply sorted_keys_page_range. }
  assert (Himgs : length (_get_sorted_image_files image_dir) = n).
  { apply (f_equal length) in Hkeys.
    now rewrite !length_map, length_seq in Hkeys. }
  exists (page_nodes 0 (_get_sorted_image_files image_dir) md_texts).
  rewrite (get_text_nodes_spec _ _ _ Hmds), decide_True by lia.
  split; [reflexivity|]. split.
  { rewrite page_nodes_length. lia. }
  intros i d Hd.
  destruct (Forall2_lookup_l _ _ _ _ _ Hmds Hd) as (md & Hmd_i & Hdmd).
  apply lookup_lt_Some in Hd as Hi. fold n in Hi.
  destruct (lookup_lt_is_Some_2 (_get_sorted_image_files image_dir) i)
    as [image_file Hf]; [lia|].
  exists (page_node i image_file md), image_file.
  rewrite (page_nodes_lookup 0 i _ _ _ _ Hf Hmd_i). simpl.
  repeat split; auto.
  assert (Hk : map page_key (_get_sorted_image_files image_dir) !! i
               = Some (page_key image_file)).
  { now rewrite list_lookup_fmap, Hf. }
  rewrite Hkeys, list_lookup_fmap, lookup_seq_lt in Hk by lia.
  simpl in Hk. inversion Hk. unfold page_key in *. lia.
Qed.

Lemma get_text_nodes_page_num_matches_image_witness :
  exists nodes,
    get_text_nodes Sample.two_images Sample.two_pages = Ok nodes
    /\ length nodes = length Sample.two_pages
    /\ forall i d, Sample.two_pages !! i = Some d ->
         exists node image_file,
           nodes !! i = Some node
           /\ _get_sorted_image_files Sample.two_images !! i = Some image_file
           /\ dict_get "page_num" (metadata node) = Some (VInt (Z.of_nat i + 1))
           /\ dict_get "image_path" (metadata node)
              = Some (VStr (path_str image_file))
           /\ dict_get "parsed_text_markdown" (metadata node) = d !! "md"
           /\ get_page_number (path_str image_file) = Z.of_nat i + 1.
Proof.
  apply (get_text_nodes_page_num_matches_image
           Sample.two_images Sample.two_pages).
  - repeat constructor; unfold Sample.page;
      rewrite lookup_singleton_eq; eexists; reflexivity.
  - change (map page_key (List.filter is_file (iterdir Sample.two_images)))
      with [2; 1].
    apply Permutation_swap.
Defined.

(** C5, as stated, fails: with one image for two page records the loop
    reaches [image_files[1]], and [get_text_nodes] raises [IndexError]
    instead of returning a chunk list. *)
Lemma get_text_nodes_fewer_images_raises :
  length (_get_sorted_image_files Sample.one_image) <> length Sample.two_pages
  /\ get_text_nodes Sample.one_image Sample.two_pages = Raise IndexError.
Proof.
  split; [discriminate|].
  rewrite (get_text_nodes_spec _ _ [VStr "first page"; VStr "second page"]).
  - reflexivity.
  - repeat constructor; apply lookup_singleton_eq.
Qed.

(** C5 (amended): when the number of image files in the pairing list
    differs from the number of page records (each with its text), nothing
    is checked beforehand.  With fewer images than records,
    [get_text_nodes] raises [IndexError] and returns no chunk list.  With
    more images than records, it returns one chunk per record, pairing
    record [i] with the [i]-th image of the sorted list whatever page that
    image shows, and leaves the surplus images out. *)
Theorem get_text_nodes_count_mismatch
    (image_dir : Directory) (json_dicts : list page_dict) :
  Forall (fun d => is_Some (d !! "md")) json_dicts ->
  length (_get_sorted_image_files image_dir) <> length json_dicts ->
  ((length (_get_sorted_image_files image_dir) < length json_dicts)%nat
   /\ get_text_nodes image_dir json_dicts = Raise IndexError)
  \/ ((length json_dicts < length (_get_sorted_image_files image_dir))%nat
      /\ exists nodes,
           get_text_nodes image_dir json_dicts = Ok nodes
           /\ length nodes = length json_dicts
           /\ forall i d, json_dicts !! i = Some d ->
                exists image_file md,
                  _get_sorted_image_files image_dir !! i = Some image_file
                  /\ d !! "md" = Some md
                  /\ nodes !! i = Some (page_node i image_file md)).
Proof.
  intros Hmd Hne.
  destruct (page_dicts_md_texts _ Hmd) as [md_texts Hmds].
  pose proof (Forall2_length _ _ _ Hmds) as Hlen.
  rewrite (get_text_nodes_spec _ _ _ Hmds).
  case_decide as Hle.
  - right. split; [lia|].
    exists (page_nodes 0 (_get_sorted_image_files image_dir) md_texts).
    split; [reflexivity|]. split; [rewrite page_nodes_length; lia|].
    intros i d Hd.
    destruct (Forall2_lookup_l _ _ _ _ _ Hmds Hd) as (md & Hmd_i & Hdmd).
    apply lookup_lt_Some in Hd as Hi.
    destruct (lookup_lt_is_Some_2 (_get_sorted_image_files image_dir) i)
      as [image_file Hf]; [lia|].
    exists image_file, md.
    now rewrite (page_nodes_lookup 0 i _ _ _ _ Hf Hmd_i).
  - left. split; [lia | reflexivity].
Qed.

Lemma sample_pages_have_md : Forall (fun d : page_dict => is_Some (d !! "md"))
                                    Sample.two_pages.
Proof.
  repeat constructor; unfold Sample.page;
    rewrite lookup_singleton_eq; eexists; reflexivity.
Qed.

(** With the images of pages 2, 3 and 4 for the texts of pages 1 and 2, the
    chunk of page 1 silently gets the image of page 2. *)
Lemma get_text_nodes_count_mismatch_witness :
  exists nodes,
    get_text_nodes Sample.three_images Sample.two_pages = Ok nodes
    /\ nodes !! 0%nat
       = Some (page_node 0 (mkPath "data_images_iconiq/doc-page_2.jpg" true)
                         (VStr "first page")).
Proof.
  destruct (get_text_nodes_count_mismatch Sample.three_images Sample.two_pages
              sample_pages_have_md)
    as [[Hlt _] | (_ & nodes & Hn & _ & Hi)].
  - discriminate.
  - simpl in Hlt. lia.
  - exists nodes. split; [exact Hn|].
    destruct (Hi 0%nat (Sample.page "first page") eq_refl)
      as (image_file & md & Hf & Hmd & ->).
    unfold Sample.page in Hmd. rewrite lookup_singleton_eq in Hmd.
    inversion Hf; inversion Hmd; reflexivity.
Defined.

(** C10: every node that [get_text_nodes] returns has the empty string as
    its text and a metadata dictionary with exactly the keys [page_num],
    [image_path] and [parsed_text_markdown], in that order; so whatever is
    computed from the node's text and metadata is computed from the
    metadata alone. *)
Theorem get_text_nodes_content_in_metadata
    (image_dir : Directory) (json_dicts : list page_dict)
    (nodes : list TextNode) :
  get_text_nodes image_dir json_dicts = Ok nodes ->
  Forall (fun n =>
            text n = EmptyString
            /\ dict_keys (metadata n)
               = ["page_num"; "image_path"; "parsed_text_markdown"]
            /\ forall (B : Type) (content_of : string -> dict -> B),
                 content_of (text n) (metadata n)
                 = content_of EmptyString (metadata n))
         nodes.
Proof.
  intros (md_texts & _ & _ & ->)%get_text_nodes_Ok_inv.
  apply page_nodes_Forall. intros idx f v. simpl. auto.
Qed.

Lemma get_text_nodes_content_in_metadata_witness :
  get_text_nodes Sample.two_images Sample.two_pages
  = Ok [page_node 0 (mkPath "data_images_iconiq/doc-page_1.jpg" true)
                  (VStr "first page");
        page_node 1 (mkPath "data_images_iconiq/doc-page_2.jpg" true)
                  (VStr "second page")]
  /\ Forall (fun n =>
               text n = EmptyString
               /\ dict_keys (metadata n)
                  = ["page_num"; "image_path"; "parsed_text_markdown"]
               /\ forall (B : Type) (content_of : string -> dict -> B),
                    content_of (text n) (metadata n)
                    = content_of EmptyString (metadata n))
            [page_node 0 (mkPath "data_images_iconiq/doc-page_1.jpg" true)
                       (VStr "first page");
             page_node 1 (mkPath "data_images_iconiq/doc-page_2.jpg" true)
                       (VStr "second page")].
Proof.
  assert (H : get_text_nodes Sample.two_images Sample.two_pages
              = Ok [page_node 0 (mkPath "data_images_iconiq/doc-page_1.jpg" true)
                              (VStr "first page");
                    page_node 1 (mkPath "data_images_iconiq/doc-page_2.jpg" true)
                              (VStr "second page")]).
  { rewrite (get_text_nodes_spec _ _ [VStr "first page"; VStr "second page"]).
    - reflexivity.
    - repeat constructor; apply lookup_singleton_eq. }
  split; [exact H|].
  exact (get_text_nodes_content_in_metadata _ _ _ H).
Defined.

(** ** [create_contextual_nodes] *)

Section AnnotatorFacts.

Variable get_content : MetadataMode -> TextNode -> string.
Variable LLM : Type.
Variable llm_chat : LLM -> ChatRequest -> ChatResponse * LLM.

Lemma objects_of_exist (s : store) (nodes : list ref) :
  Forall (fun r => (r < length s)%nat) nodes ->
  exists objs, objects_of s nodes objs.
Proof.
  induction 1 as [|r rs Hr _ [objs IH]]; [exists []; constructor|].
  destruct (lookup_lt_is_Some_2 s r Hr) as [n Hn].
  exists (n :: objs). now constructor.
Qed.

Lemma objects_of_app (s extra : store) (nodes : list ref)
    (objs : list TextNode) :
  objects_of s nodes objs -> objects_of (s ++ extra) nodes objs.
Proof.
  induction 1 as [|r n rs ns Hr _ IH]; constructor; auto.
  apply lookup_app_l_Some, Hr.
Qed.

(** One turn of the loop: a copy at the next free reference, one request,
    and the reply stored in the copy. *)
Lemma contextual_node_spec (doc_text : string) (r : ref) (n : TextNode)
    (st : RunState LLM) :
  st_store st !! r = Some n ->
  contextual_node get_content llm_chat doc_text r st
  = let req := annotation_request doc_text (get_content MetadataMode_ALL n) in
    let '(resp, llm') := llm_chat (st_llm st) req in
    Some (length (st_store st),
          mkRunState (st_store st ++ [with_context n resp]) llm'
                     (st_requests st ++ [req])).
Proof.
  intros Hr.
  unfold contextual_node, node_content, deepcopy, deref, chat, set_metadata,
    mbind, mret, Run_bind, Run_ret.
  rewrite Hr. simpl. rewrite (lookup_app_l_Some _ _ _ _ Hr). simpl.
  destruct (llm_chat _ _) as [resp llm']. simpl.
  rewrite lookup_app_r, Nat.sub_diag by lia. simpl.
  rewrite insert_app_r_alt, Nat.sub_diag by lia. reflexivity.
Qed.

#[local] Existing Instance Run_ret.
#[local] Existing Instance Run_bind.

Lemma node_content_spec (r : ref) (n : TextNode) (st : RunState LLM) :
  st_store st !! r = Some n ->
  node_content get_content r st = Some (get_content MetadataMode_ALL n, st).
Proof.
  intros Hr. unfold node_content, deref, mbind, mret, Run_bind, Run_ret.
  now rewrite Hr.
Qed.

Lemma mapM_node_content (nodes : list ref) (objs : list TextNode)
    (st : RunState LLM) :
  objects_of (st_store st) nodes objs ->
  mapM (node_content get_content) nodes st = Some (map (get_content MetadataMode_ALL) objs, st).
Proof.
  induction 1 as [|r n rs ns Hr _ IH]; [reflexivity|].
  change (mapM (node_content get_content) (r :: rs) st)
    with (match node_content get_content r st with
          | Some (y, st') =>
              match mapM (node_content get_content) rs st' with
              | Some (k, st'') => Some (y :: k, st'')
              | None => None
              end
          | None => None
          end).
  now rewrite (node_content_spec r n st Hr), IH.
Qed.

(** The whole loop: the copies take the next free references in order,
    the store grows by the annotated copies and is otherwise as before,
    and one request per node goes to the service. *)
Lemma contextual_nodes_loop_spec (doc_text : string) :
  forall (nodes : list ref) (objs : list TextNode) (acc : list ref)
         (st : RunState LLM),
    objects_of (st_store st) nodes objs ->
    contextual_nodes_loop get_content llm_chat doc_text nodes acc st
    = let reqs := map (fun n => annotation_request doc_text
                                   (get_content MetadataMode_ALL n))
                      objs in
      let '(resps, llm') := chat_all llm_chat (st_llm st) reqs in
      Some (acc ++ seq (length (st_store st)) (length nodes),
            mkRunState (st_store st ++ zip_with with_context objs resps) llm'
                       (st_requests st ++ reqs)).
Proof.
  unfold objects_of.
  induction nodes as [|r rs IH]; intros objs acc st H;
    inversion H as [|? n ? ns Hr Hrest]; subst.
  - simpl. destruct st. simpl. now rewrite !app_nil_r.
  - cbn [contextual_nodes_loop]. unfold mbind at 1, Run_bind at 1.
    rewrite (contextual_node_spec doc_text r n st Hr).
    cbn [map chat_all]. cbv zeta.
    destruct (llm_chat (st_llm st) _) as [resp llm1] eqn:Hchat.
    rewrite (IH ns).
    2:{ cbn [st_store]. apply (objects_of_app (st_store st)). exact Hrest. }
    cbv zeta. cbn [st_llm st_store st_requests].
    destruct (chat_all llm_chat llm1 _) as [resps llm2].
    rewrite length_app, Nat.add_1_r. cbn [length seq zip_with].
    now rewrite <- !app_assoc.
Qed.

Lemma chat_all_length (llm : LLM) (reqs : list ChatRequest) :
  length (fst (chat_all llm_chat llm reqs)) = length reqs.
Proof.
  revert llm; induction reqs as [|req reqs IH]; intros llm; simpl; auto.
  destruct (llm_chat llm req) as [resp llm1].
  specialize (IH llm1). destruct (chat_all llm_chat llm1 reqs). simpl in *.
  now rewrite IH.
Qed.

(** A service whose reply is a function of the request alone. *)
Lemma chat_all_stub (stub : ChatRequest -> ChatResponse) :
  (forall llm req, fst (llm_chat llm req) = stub req) ->
  forall llm reqs, fst (chat_all llm_chat llm reqs) = map stub reqs.
Proof.
  intros Hstub llm reqs. revert llm.
  induction reqs as [|req reqs IH]; intros llm; simpl; auto.
  specialize (Hstub llm req).
  destruct (llm_chat llm req) as [resp llm1]. simpl in Hstub. subst resp.
  specialize (IH llm1). destruct (chat_all llm_chat llm1 reqs). simpl in *.
  now rewrite IH.
Qed.

(** The run as a whole. *)
Lemma create_contextual_nodes_spec (nodes : list ref) (objs : list TextNode)
    (st : RunState LLM) :
  objects_of (st_store st) nodes objs ->
  create_contextual_nodes get_content llm_chat nodes st
  = Some (seq (length (st_store st)) (length nodes),
          mkRunState
            (st_store st
             ++ zip_with with_context objs
                  (fst (chat_all llm_chat (st_llm st) (annotation_requests get_content objs))))
            (snd (chat_all llm_chat (st_llm st) (annotation_requests get_content objs)))
            (st_requests st ++ annotation_requests get_content objs)).
Proof.
  intros H. unfold create_contextual_nodes. cbv zeta.
  unfold mbind at 1, Run_bind at 1.
  rewrite (mapM_node_content nodes objs st H).
  rewrite (contextual_nodes_loop_spec _ nodes objs [] st H). cbv zeta.
  unfold annotation_requests. cbv zeta.
  destruct (chat_all llm_chat (st_llm st) _) as [resps llm']. reflexivity.
Qed.

Lemma annotation_requests_length (objs : list TextNode) :
  length (annotation_requests get_content objs) = length objs.
Proof. unfold annotation_requests. cbv zeta. apply length_map. Qed.

Lemma annotated_lookup (objs : list TextNode) (resps : list ChatResponse)
    (i : nat) (n : TextNode) :
  length resps = length objs -> objs !! i = Some n ->
  exists resp, resps !! i = Some resp
               /\ zip_with with_context objs resps !! i
                  = Some (with_context n resp).
Proof.
  intros Hlen Hn. apply lookup_lt_Some in Hn as Hi.
  destruct (lookup_lt_is_Some_2 resps i) as [resp Hresp]; [lia|].
  exists resp. split; [assumption|].
  rewrite lookup_zip_with, Hn. simpl. now rewrite Hresp.
Qed.

End AnnotatorFacts.

(** ** Dictionaries *)

Section DictFacts.

Lemma dict_get_set_eq (k : string) (v : Value) (d : dict) :
  dict_get k (dict_set k v d) = Some v.
Proof.
  induction d as [|[k' v'] d IH]; simpl.
  - now rewrite String.eqb_refl.
  - destruct (String.eqb k k') eqn:E; simpl; rewrite ?String.eqb_refl, ?E; auto.
Qed.

Lemma dict_get_set_ne (k k' : string) (v : Value) (d : dict) :
  k' <> k -> dict_get k' (dict_set k v d) = dict_get k' d.
Proof.
  intros Hne. induction d as [|[k0 v0] d IH]; simpl.
  - now apply String.eqb_neq in Hne as ->.
  - destruct (String.eqb_spec k k0) as [->|]; simpl.
    + now apply String.eqb_neq in Hne as ->.
    + now rewrite IH.
Qed.

Lemma length_append_str (a b : string) :
  String.length (a +:+ b) = (String.length a + String.length b)%nat.
Proof. induction a as [|c a IH]; simpl; auto. Qed.

(** The rendering of a reply is never the bare text of the reply. *)
Lemma ChatResponse_str_not_text (resp : ChatResponse) :
  ChatResponse_str resp <> response_text resp.
Proof.
  intros H. apply (f_equal String.length) in H.
  unfold ChatResponse_str in H. rewrite !length_append_str in H.
  simpl in H. lia.
Qed.

End DictFacts.

(** ** The claims on [create_contextual_nodes] *)

Section AnnotatorClaims.

Variable get_content : MetadataMode -> TextNode -> string.
Variable LLM : Type.
Variable llm_chat : LLM -> ChatRequest -> ChatResponse * LLM.

(** C3: when every reference of the input list points into the store,
    [create_contextual_nodes] returns, and every object that was in the
    store before the call, each input node among them, has the same text
    and metadata after it.  The returned list has one new object per input
    node: a copy with the node's text and metadata, and the ["context"]
    key set. *)
Theorem create_contextual_nodes_preserves_inputs
    (nodes : list ref) (st : RunState LLM) :
  Forall (fun r => (r < length (st_store st))%nat) nodes ->
  exists nodes_modified st',
    create_contextual_nodes get_content llm_chat nodes st
    = Some (nodes_modified, st')
    /\ (forall r n, st_store st !! r = Some n -> st_store st' !! r = Some n)
    /\ length nodes_modified = length nodes
    /\ forall i r, nodes !! i = Some r ->
         exists r' n n',
           nodes_modified !! i = Some r'
           /\ st_store st !! r = Some n
           /\ st_store st !! r' = None
           /\ st_store st' !! r' = Some n'
           /\ text n' = text n
           /\ is_Some (dict_get "context" (metadata n'))
           /\ forall k, k <> "context" ->
                dict_get k (metadata n') = dict_get k (metadata n).
Proof.
  intros Hvalid.
  destruct (objects_of_exist _ _ Hvalid) as [objs Hobjs].
  eexists _, _. split; [apply (create_contextual_nodes_spec _ _ _ _ _ _ Hobjs)|].
  cbn [st_store]. split; [|split].
  - intros r n Hr. now apply lookup_app_l_Some.
  - apply length_seq.
  - intros i r Hi.
    destruct (Forall2_lookup_l _ _ _ _ _ Hobjs Hi) as (n & Hn & Hrn).
    destruct (annotated_lookup objs
                (fst (chat_all llm_chat (st_llm st)
                        (annotation_requests get_content objs))) i n)
      as (resp & _ & Hz); [|exact Hn|].
    { now rewrite chat_all_length, annotation_requests_length. }
    apply lookup_lt_Some in Hi as Hlt.
    exists (length (st_store st) + i)%nat, n, (with_context n resp).
    repeat split.
    + now rewrite lookup_seq_lt.
    + exact Hrn.
    + apply lookup_ge_None. lia.
    + rewrite lookup_app_r by lia.
      replace (length (st_store st) + i - length (st_store st))%nat with i
        by lia.
      exact Hz.
    + simpl. rewrite dict_get_set_eq. eauto.
    + intros k Hk. simpl. now apply dict_get_set_ne.
Qed.

(** C2: when every reference of the input list points into the store,
    [create_contextual_nodes] sends exactly one request per input node,
    and the ["context"] of the [i]-th returned node is [str] of the [i]-th
    reply: the role of the reply, a colon and a space, and then the text
    of the reply.  It is not the text of the reply as it came. *)
Theorem create_contextual_nodes_context_is_rendered_reply
    (nodes : list ref) (st : RunState LLM) :
  Forall (fun r => (r < length (st_store st))%nat) nodes ->
  exists nodes_modified st' objs,
    create_contextual_nodes get_content llm_chat nodes st
    = Some (nodes_modified, st')
    /\ objects_of (st_store st) nodes objs
    /\ st_requests st' = st_requests st ++ annotation_requests get_content objs
    /\ length (annotation_requests get_content objs) = length nodes
    /\ length nodes_modified = length nodes
    /\ forall i r', nodes_modified !! i = Some r' ->
         exists resp n',
           fst (chat_all llm_chat (st_llm st)
                  (annotation_requests get_content objs)) !! i = Some resp
           /\ st_store st' !! r' = Some n'
           /\ dict_get "context" (metadata n')
              = Some (VStr (role_value (response_role resp) +:+ ": "
                            +:+ response_text resp))
           /\ dict_get "context" (metadata n')
              <> Some (VStr (response_text resp)).
Proof.
  intros Hvalid.
  destruct (objects_of_exist _ _ Hvalid) as [objs Hobjs].
  pose proof (Forall2_length _ _ _ Hobjs) as Hlen.
  eexists _, _, objs.
  split; [apply (create_contextual_nodes_spec _ _ _ _ _ _ Hobjs)|].
  cbn [st_store st_requests]. repeat split; auto.
  - now rewrite annotation_requests_length.
  - apply length_seq.
  - intros i r' Hi.
    apply lookup_lt_Some in Hi as Hlt. rewrite length_seq in Hlt.
    rewrite lookup_seq_lt in Hi by lia. inversion Hi; subst r'; clear Hi.
    destruct (lookup_lt_is_Some_2 objs i) as [n Hn]; [lia|].
    destruct (annotated_lookup objs
                (fst (chat_all llm_chat (st_llm st)
                        (annotation_requests get_content objs))) i n)
      as (resp & Hresp & Hz); [|exact Hn|].
    { now rewrite chat_all_length, annotation_requests_length. }
    exists resp, (with_context n resp).
    repeat split; auto.
    + rewrite lookup_app_r by lia.
      replace (length (st_store st) + i - length (st_store st))%nat with i
        by lia.
      exact Hz.
    + simpl. now rewrite dict_get_set_eq.
    + simpl. rewrite dict_get_set_eq. intros [= H].
      now apply (ChatResponse_str_not_text resp).
Qed.


(** C7: with a service whose reply depends on the request alone, a second
    run of [create_contextual_nodes] on the same node list, after the
    first, gives nodes with the same ["context"] values as the first gave,
    index by index: the value the first run stored, read right after the
    first run, is the value the second run stores; it is the rendering of
    the stub's reply to the request for that chunk.  The nodes of the
    first run are not touched by the second. *)
Theorem create_contextual_nodes_deterministic
    (stub : ChatRequest -> ChatResponse)
    (nodes : list ref) (st : RunState LLM) :
  (forall llm req, fst (llm_chat llm req) = stub req) ->
  Forall (fun r => (r < length (st_store st))%nat) nodes ->
  exists out1 st1 out2 st2 objs,
    create_contextual_nodes get_content llm_chat nodes st = Some (out1, st1)
    /\ create_contextual_nodes get_content llm_chat nodes st1 = Some (out2, st2)
    /\ objects_of (st_store st) nodes objs
    /\ length out1 = length nodes
    /\ length out2 = length nodes
    /\ forall i r1 r2, out1 !! i = Some r1 -> out2 !! i = Some r2 ->
         exists n1 n2 req,
           annotation_requests get_content objs !! i = Some req
           /\ st_store st1 !! r1 = Some n1
           /\ st_store st2 !! r1 = Some n1
           /\ st_store st2 !! r2 = Some n2
           /\ dict_get "context" (metadata n1)
              = Some (VStr (ChatResponse_str (stub req)))
           /\ dict_get "context" (metadata n2)
              = Some (VStr (ChatResponse_str (stub req))).
Proof.
  intros Hstub Hvalid.
  destruct (objects_of_exist _ _ Hvalid) as [objs Hobjs].
  pose proof (Forall2_length _ _ _ Hobjs) as Hlen.
  pose proof (create_contextual_nodes_spec get_content LLM llm_chat
                nodes objs st Hobjs) as Hrun1.
  set (reqs := annotation_requests get_content objs) in *.
  rewrite (chat_all_stub LLM llm_chat stub Hstub) in Hrun1.
  set (copies := zip_with with_context objs (map stub reqs)) in *.
  set (st1 := mkRunState (st_store st ++ copies) _ _) in Hrun1.
  assert (Hobjs1 : objects_of (st_store st1) nodes objs).
  { apply (objects_of_app (st_store st)), Hobjs. }
  pose proof (create_contextual_nodes_spec get_content LLM llm_chat
                nodes objs st1 Hobjs1) as Hrun2.
  fold reqs in Hrun2.
  rewrite (chat_all_stub LLM llm_chat stub Hstub) in Hrun2.
  fold copies in Hrun2.
  assert (Hreqs : length reqs = length nodes).
  { unfold reqs. rewrite annotation_requests_length. lia. }
  assert (Hcopies : length copies = length nodes).
  { unfold copies. rewrite length_zip_with, length_map. lia. }
  eexists _, st1, _, _, objs.
  split; [exact Hrun1|]. split; [exact Hrun2|]. split; [exact Hobjs|].
  subst st1. cbn [st_store]. rewrite !length_seq, length_app. repeat split.
  intros i r1 r2 H1 H2.
  apply lookup_lt_Some in H1 as Hi. rewrite length_seq in Hi.
  rewrite lookup_seq_lt in H1, H2 by lia.
  inversion H1; subst r1; inversion H2; subst r2; clear H1 H2.
  destruct (lookup_lt_is_Some_2 objs i) as [n Hn]; [lia|].
  destruct (lookup_lt_is_Some_2 reqs i) as [req Hreq]; [lia|].
  assert (Hz : copies !! i = Some (with_context n (stub req))).
  { unfold copies. rewrite lookup_zip_with, Hn. simpl.
    now rewrite list_lookup_fmap, Hreq. }
  assert (Hst1 : (st_store st ++ copies) !! (length (st_store st) + i)%nat
                 = Some (with_context n (stub req))).
  { rewrite lookup_app_r by lia.
    replace (length (st_store st) + i - length (st_store st))%nat with i
      by lia.
    exact Hz. }
  exists (with_context n (stub req)), (with_context n (stub req)), req.
  repeat split.
  - exact Hreq.
  - exact Hst1.
  - now apply lookup_app_l_Some.
  - rewrite lookup_app_r by (rewrite length_app; lia).
    rewrite length_app.
    replace (length (st_store st) + length copies + i
             - (length (st_store st) + length copies))%nat with i by lia.
    exact Hz.
  - simpl. now rewrite dict_get_set_eq.
  - simpl. now rewrite dict_get_set_eq.
Qed.

End AnnotatorClaims.

Lemma sample_chunk_refs_valid :
  Forall (fun r => (r < length (st_store Sample.initial_state))%nat)
         Sample.chunk_refs.
Proof. repeat constructor. Qed.

Lemma create_contextual_nodes_preserves_inputs_witness :
  exists nodes_modified st',
    create_contextual_nodes Sample.get_content Sample.llm_chat
      Sample.chunk_refs Sample.initial_state
    = Some (nodes_modified, st')
    /\ (forall r n, Sample.chunks !! r = Some n -> st_store st' !! r = Some n)
    /\ length nodes_modified = 2%nat.
Proof.
  destruct (create_contextual_nodes_preserves_inputs
              Sample.get_content nat Sample.llm_chat
              Sample.chunk_refs Sample.initial_state sample_chunk_refs_valid)
    as (nodes_modified & st' & Hrun & Hframe & Hlen & _).
  exists nodes_modified, st'. auto.
Defined.

(** On the sample document the stored context of the first chunk reads
    ["assistant: Page of the sample document."]. *)
Lemma create_contextual_nodes_context_is_rendered_reply_witness :
  exists nodes_modified st' n',
    create_contextual_nodes Sample.get_content Sample.llm_chat
      Sample.chunk_refs Sample.initial_state
    = Some (nodes_modified, st')
    /\ length (st_requests st') = 2%nat
    /\ nodes_modified !! 0%nat = Some 2%nat
    /\ st_store st' !! 2%nat = Some n'
    /\ dict_get "context" (metadata n')
       = Some (VStr "assistant: Page of the sample document.").
Proof.
  destruct (create_contextual_nodes_context_is_rendered_reply
              Sample.get_content nat Sample.llm_chat
              Sample.chunk_refs Sample.initial_state sample_chunk_refs_valid)
    as (nodes_modified & st' & objs & Hrun & Hobjs & Hreqs & Hnreq & Hlen & Hctx).
  assert (Hsome : create_contextual_nodes Sample.get_content Sample.llm_chat
                    Sample.chunk_refs Sample.initial_state
                  = Some ([2; 3]%nat,
                          mkRunState
                            (Sample.chunks
                             ++ map (fun n => with_context n
                                       (mkChatResponse assistant
                                          "Page of the sample document."))
                                    Sample.chunks)
                            2%nat
                            (annotation_requests Sample.get_content
                               Sample.chunks))) by reflexivity.
  rewrite Hsome in Hrun. inversion Hrun; subst nodes_modified st'; clear Hrun.
  eexists _, _, _. split; [exact Hsome|].
  repeat split.
Defined.


Lemma create_contextual_nodes_deterministic_witness :
  exists out1 st1 out2 st2 objs,
    create_contextual_nodes Sample.get_content Sample.llm_chat
      Sample.chunk_refs Sample.initial_state = Some (out1, st1)
    /\ create_contextual_nodes Sample.get_content Sample.llm_chat
         Sample.chunk_refs st1 = Some (out2, st2)
    /\ objects_of Sample.chunks Sample.chunk_refs objs
    /\ length out1 = length Sample.chunk_refs
    /\ length out2 = length Sample.chunk_refs
    /\ forall i r1 r2, out1 !! i = Some r1 -> out2 !! i = Some r2 ->
         exists n1 n2 req,
           annotation_requests Sample.get_content objs !! i = Some req
           /\ st_store st1 !! r1 = Some n1
           /\ st_store st2 !! r1 = Some n1
           /\ st_store st2 !! r2 = Some n2
           /\ dict_get "context" (metadata n1)
              = Some (VStr "assistant: Page of the sample document.")
           /\ dict_get "context" (metadata n2)
              = Some (VStr "assistant: Page of the sample document.").
Proof.
  apply (create_contextual_nodes_deterministic
           Sample.get_content nat Sample.llm_chat
           (fun _ => mkChatResponse assistant "Page of the sample document.")).
  - reflexivity.
  - exact sample_chunk_refs_valid.
Defined.

(** ** [MultimodalQueryEngine.custom_query] *)

Section QueryEngineFacts.

Variable Score : Type.
Variable World : Type.
Variable get_content : MetadataMode -> TextNode -> string.

(** The image reference built for a retrieved chunk. *)
Lemma image_node_of_Ok (n : NodeWithScore Score TextNode)
    (p : string) :
  dict_get "image_path" (metadata (node n)) = Some (VStr p) ->
  image_node_of n = Ok (mkNodeWithScore (mkImageNode (Some p)) None).
Proof.
  intros H. unfold image_node_of, dict_item. rewrite H. reflexivity.
Qed.

Lemma mapM_image_node_of (nodes : list (NodeWithScore Score TextNode)) :
  Forall (fun n => exists p,
            dict_get "image_path" (metadata (node n)) = Some (VStr p)) nodes ->
  exists image_nodes : list (NodeWithScore Score ImageNode),
    mapM image_node_of nodes = Ok image_nodes
    /\ Forall2 (fun n im =>
                  exists p,
                    dict_get "image_path" (metadata (node n)) = Some (VStr p)
                    /\ im = mkNodeWithScore (mkImageNode (Some p)) None)
               nodes image_nodes.
Proof.
  induction 1 as [|n ns [p Hp] _ (ims & Hm & Hall)].
  - exists []. split; [reflexivity | constructor].
  - exists (mkNodeWithScore (mkImageNode (Some p)) None :: ims). split.
    + now rewrite mapM_result_cons, (image_node_of_Ok n p Hp), Hm.
    + constructor; eauto.
Qed.

End QueryEngineFacts.

(** C8: for every query string, when each retrieved chunk has a string
    under [image_path], [custom_query] returns a response whose
    [source_nodes] and [text_nodes] are the retrieved chunks, and whose
    [image_nodes] hold one image reference per retrieved chunk, in
    retrieval order, each with the path of its chunk's [image_path]; the
    answer is the multimodal service's reply to the formatted prompt and
    those images. *)
Theorem custom_query_image_per_retrieved_chunk
    (Score World : Type) (get_content : MetadataMode -> TextNode -> string)
    (self : MultimodalQueryEngine Score World) (query_str : string)
    (w : World) :
  Forall (fun n => exists p,
            dict_get "image_path" (metadata (node n)) = Some (VStr p))
         (fst (retriever self w query_str)) ->
  exists resp w',
    custom_query get_content self query_str w = (Ok resp, w')
    /\ source_nodes resp = fst (retriever self w query_str)
    /\ text_nodes (response_metadata resp) = fst (retriever self w query_str)
    /\ length (image_nodes (response_metadata resp))
       = length (fst (retriever self w query_str))
    /\ (forall i n, fst (retriever self w query_str) !! i = Some n ->
          exists p,
            dict_get "image_path" (metadata (node n)) = Some (VStr p)
            /\ image_nodes (response_metadata resp) !! i
               = Some (mkNodeWithScore (mkImageNode (Some p)) None))
    /\ (response resp, w')
       = multi_modal_llm self (snd (retriever self w query_str))
           (qa_prompt self
              (PyStr.join (PyStr.NL +:+ PyStr.NL)
                 (map (fun r => get_content MetadataMode_LLM (node r))
                      (fst (retriever self w query_str))))
              query_str)
           (map node (image_nodes (response_metadata resp))).
Proof.
  intros Hpaths. unfold custom_query.
  destruct (retriever self w query_str) as [nodes w1]. simpl in *.
  destruct (mapM_image_node_of Score nodes Hpaths) as (ims & -> & Hall).
  destruct (multi_modal_llm self w1 _ _) as [llm_response w2] eqn:Hllm.
  eexists _, _. split; [reflexivity|]. simpl.
  repeat split; auto.
  - symmetry. exact (Forall2_length _ _ _ Hall).
  - intros i n Hn.
    destruct (Forall2_lookup_l _ _ _ _ _ Hall Hn) as (im & Him & p & Hp & ->).
    exists p. auto.
Qed.

Lemma custom_query_image_per_retrieved_chunk_witness :
  exists resp,
    custom_query Sample.get_content Sample.query_engine "which page?" tt
    = (Ok resp, tt)
    /\ map (fun n => dict_get "page_num" (metadata (node n))) (source_nodes resp)
       = [Some (VInt 2); Some (VInt 1)]
    /\ map node (image_nodes (response_metadata resp))
       = [mkImageNode (Some "data_images_iconiq/doc-page_2.jpg");
          mkImageNode (Some "data_images_iconiq/doc-page_1.jpg")].
Proof.
  destruct (custom_query_image_per_retrieved_chunk nat unit
              Sample.get_content Sample.query_engine "which page?" tt)
    as (resp & w' & Hrun & _).
  - repeat constructor; eexists; reflexivity.
  - destruct w'. exists resp. split; [exact Hrun|].
    assert (Hsome : exists r, custom_query Sample.get_content
                                Sample.query_engine "which page?" tt
                              = (Ok r, tt)
                              /\ r = resp).
    { rewrite Hrun. eauto. }
    destruct Hsome as (r & Hr & <-).
    inversion Hr. split; reflexivity.
Defined.

(** * Further properties *)

(** ** [get_text_nodes]: when it returns, and what it raises *)

Section TextNodesErrors.

Lemma mapM_page_item_missing (json_dicts : list page_dict) :
  Exists (fun d => d !! "md" = None) json_dicts ->
  mapM (page_item "md") json_dicts = Raise (KeyError "md").
Proof.
  induction json_dicts as [|d ds IH]; intros H; [inversion H|].
  rewrite mapM_result_cons. unfold page_item at 1.
  destruct (d !! "md") as [v|] eqn:Hd; [|reflexivity].
  inversion H as [? ? Hnone | ? ? Hrest]; subst; [congruence|].
  now rewrite (IH Hrest).
Qed.

Lemma Forall2_md_is_Some (json_dicts : list page_dict) (md_texts : list Value) :
  Forall2 (fun d v => d !! "md" = Some v) json_dicts md_texts ->
  Forall (fun d => is_Some (d !! "md")) json_dicts.
Proof. induction 1; constructor; eauto. Qed.

End TextNodesErrors.

(** X1: [get_text_nodes] returns a chunk list exactly when every page
    record has the key ["md"] and there are at least as many image files
    in the pairing list as page records. *)
Theorem get_text_nodes_succeeds_iff
    (image_dir : Directory) (json_dicts : list page_dict) :
  (exists nodes, get_text_nodes image_dir json_dicts = Ok nodes)
  <-> Forall (fun d => is_Some (d !! "md")) json_dicts
      /\ (length json_dicts
          <= length (_get_sorted_image_files image_dir))%nat.
Proof.
  split.
  - intros [nodes (md_texts & Hmd & Hle & _)%get_text_nodes_Ok_inv].
    split; [now apply (Forall2_md_is_Some _ md_texts)|].
    now rewrite (Forall2_length _ _ _ Hmd).
  - intros [Hmd Hle].
    destruct (page_dicts_md_texts _ Hmd) as [md_texts Hmds].
    rewrite (get_text_nodes_spec _ _ _ Hmds), decide_True.
    + eauto.
    + now rewrite <- (Forall2_length _ _ _ Hmds).
Qed.

(** X2: a page record without the key ["md"] makes [get_text_nodes] raise
    [KeyError("md")], whatever the image directory holds: the texts are
    collected before the first image is looked at. *)
Theorem get_text_nodes_missing_md
    (image_dir : Directory) (json_dicts : list page_dict) :
  Exists (fun d => d !! "md" = None) json_dicts ->
  get_text_nodes image_dir json_dicts = Raise (KeyError "md").
Proof.
  intros H. unfold get_text_nodes. cbv zeta.
  now rewrite (mapM_page_item_missing _ H).
Qed.

Lemma get_text_nodes_missing_md_witness :
  get_text_nodes (mkDirectory "data_images_iconiq" [])
                 [Sample.page "first page"; ∅]
  = Raise (KeyError "md").
Proof.
  apply get_text_nodes_missing_md.
  apply Exists_cons_tl, Exists_cons_hd. apply lookup_empty.
Defined.

(** X3: whenever [get_text_nodes] returns, it returns one chunk per page
    record, and chunk [i] has [page_num = i + 1], the text of record [i]
    and the path of the [i]-th file of the sorted list: the page number is
    the position, and is never read from the file name. *)
Theorem get_text_nodes_positional
    (image_dir : Directory) (json_dicts : list page_dict)
    (nodes : list TextNode) :
  get_text_nodes image_dir json_dicts = Ok nodes ->
  length nodes = length json_dicts
  /\ forall i d, json_dicts !! i = Some d ->
       exists image_file md,
         _get_sorted_image_files image_dir !! i = Some image_file
         /\ d !! "md" = Some md
         /\ nodes !! i = Some (page_node i image_file md).
Proof.
  intros (md_texts & Hmds & Hle & ->)%get_text_nodes_Ok_inv.
  pose proof (Forall2_length _ _ _ Hmds) as Hlen.
  split; [rewrite page_nodes_length; lia|].
  intros i d Hd.
  destruct (Forall2_lookup_l _ _ _ _ _ Hmds Hd) as (md & Hmd_i & Hdmd).
  apply lookup_lt_Some in Hd as Hi.
  destruct (lookup_lt_is_Some_2 (_get_sorted_image_files image_dir) i)
    as [image_file Hf]; [lia|].
  exists image_file, md.
  now rewrite (page_nodes_lookup 0 i _ _ _ _ Hf Hmd_i).
Qed.

Lemma get_text_nodes_positional_witness :
  exists nodes,
    get_text_nodes Sample.three_images [Sample.page "first page"] = Ok nodes
    /\ length nodes = 1%nat
    /\ nodes !! 0%nat
       = Some (page_node 0 (mkPath "data_images_iconiq/doc-page_2.jpg" true)
                         (VStr "first page")).
Proof.
  assert (H : exists nodes,
             get_text_nodes Sample.three_images [Sample.page "first page"]
             = Ok nodes).
  { rewrite (get_text_nodes_spec _ _ [VStr "first page"]).
    - eexists. reflexivity.
    - repeat constructor; apply lookup_singleton_eq. }
  destruct H as [nodes H]. exists nodes. split; [exact H|].
  destruct (get_text_nodes_positional _ _ _ H) as [Hlen Hi].
  split; [exact Hlen|].
  destruct (Hi 0%nat (Sample.page "first page") eq_refl)
    as (image_file & md & Hf & Hmd & ->).
  unfold Sample.page in Hmd. rewrite lookup_singleton_eq in Hmd.
  inversion Hf; inversion Hmd; reflexivity.
Defined.

(** ** [get_page_number] and the order of the image files *)

Section PageOrder.

Lemma match_here_no_slash (s ds : string) :
  match_here s = Some ds -> PyStr.has_char "/" s = false.
Proof.
  intros (tail & -> & Ht & Hd & _)%match_here_Some.
  rewrite !has_char_app, (digits_no_char "/" ds eq_refl Hd).
  destruct (at_dollar_cases _ Ht) as [-> | ->]; reflexivity.
Qed.

(** What stands before a ["/"] plays no part in the search. *)
Lemma re_search_after_slash (x name : string) :
  re_search (x +:+ String "/" name) = re_search name.
Proof.
  induction x as [|c x IH].
  - change (EmptyString +:+ ?s) with s. now rewrite re_search_eq.
  - change (String c x +:+ ?s) with (String c (x +:+ s)).
    rewrite re_search_eq.
    destruct (match_here (String c _)) as [g|] eqn:Hm; [|exact IH].
    apply match_here_no_slash in Hm. simpl in Hm.
    rewrite has_char_app in Hm. simpl in Hm.
    rewrite orb_true_r, orb_true_r in Hm. discriminate.
Qed.

Lemma StronglySorted_lookup_le (l : list Z) (i j : nat) (x y : Z) :
  StronglySorted Z.le l -> l !! i = Some x -> l !! j = Some y ->
  (i < j)%nat -> x <= y.
Proof.
  intros Hs. revert i j. induction Hs as [|a l Hs IH Hall]; intros i j Hi Hj Hlt.
  - discriminate.
  - destruct j as [|j]; [lia|]. destruct i as [|i]; simpl in *.
    + inversion Hi; subst. rewrite Forall_forall in Hall.
      apply Hall. now apply (list_elem_of_lookup_2 _ j).
    + apply (IH i j); auto. lia.
Qed.

End PageOrder.

(** X4: the list of [_get_sorted_image_files] holds the filtered files,
    each as often as the directory listing has it, in ascending order of
    page number: a file with a smaller page number stands before every
    file with a larger one.  So the files with page number 0 (every file
    without a page number in its name is one, and so is a file named as
    page 0) stand before all files with a positive page number. *)
Theorem sorted_image_files_ascending (image_dir : Directory) :
  _get_sorted_image_files image_dir ≡ₚ raw_files image_dir
  /\ (forall i j f g,
        _get_sorted_image_files image_dir !! i = Some f ->
        _get_sorted_image_files image_dir !! j = Some g ->
        (i < j)%nat -> page_key f <= page_key g)
  /\ (forall i j f g,
        _get_sorted_image_files image_dir !! i = Some f ->
        _get_sorted_image_files image_dir !! j = Some g ->
        page_key f < page_key g -> (i < j)%nat)
  /\ (forall i j f g,
        _get_sorted_image_files image_dir !! i = Some f ->
        _get_sorted_image_files image_dir !! j = Some g ->
        page_key f = 0 -> 0 < page_key g -> (i < j)%nat).
Proof.
  unfold _get_sorted_image_files. cbv zeta.
  set (out := sorted page_key (raw_files image_dir)).
  assert (Hs : StronglySorted Z.le (map page_key out)).
  { apply Sorted_StronglySorted; [intros ? ? ? ? ?; lia|].
    apply sorted_Sorted. }
  assert (Hle : forall i j f g, out !! i = Some f -> out !! j = Some g ->
                                (i < j)%nat -> page_key f <= page_key g).
  { intros i j f g Hf Hg Hlt.
    apply (StronglySorted_lookup_le _ i j _ _ Hs); auto.
    - now rewrite list_lookup_fmap, Hf.
    - now rewrite list_lookup_fmap, Hg. }
  assert (Hlt : forall i j f g, out !! i = Some f -> out !! j = Some g ->
                                page_key f < page_key g -> (i < j)%nat).
  { intros i j f g Hf Hg Hlt.
    destruct (Nat.lt_trichotomy i j) as [?|[->|Hji]]; [assumption| |].
    - rewrite Hf in Hg. inversion Hg; subst. lia.
    - pose proof (Hle j i g f Hg Hf Hji). lia. }
  split; [apply sorted_Permutation|]. split; [exact Hle|].
  split; [exact Hlt|].
  intros i j f g Hf Hg H0 Hpos. apply (Hlt i j f g Hf Hg). lia.
Qed.

(** X5: the sort is stable: the files that share a page number (the
    files without one among them) come out in the order in which the
    directory listing gave them. *)
Theorem sorted_image_files_stable (image_dir : Directory) (k : Z) :
  List.filter (fun f => page_key f =? k) (_get_sorted_image_files image_dir)
  = List.filter (fun f => page_key f =? k) (raw_files image_dir).
Proof. apply sorted_stable. Qed.

(** X6: [get_page_number] never returns a negative number. *)
Theorem get_page_number_nonneg (file_name : string) :
  0 <= get_page_number file_name.
Proof.
  unfold get_page_number.
  destruct (re_search file_name) as [ds|] eqn:Hs; [|lia].
  unfold PyStr.int_of_digits. apply int_acc_nonneg. lia.
Qed.

(** X7: the page number of a file in a directory is the page number of
    its name: the directory part of the path plays no part, whatever it
    contains. *)
Theorem get_page_number_child_path (d name : string) :
  get_page_number (child_path d name) = get_page_number name.
Proof.
  unfold get_page_number, child_path.
  destruct (String.eqb d "."); [reflexivity|].
  destruct (PyStr.ends_with "/" d) eqn:He.
  - apply ends_with_inv in He as [a ->].
    rewrite app_assoc_str. change ("/" +:+ name) with (String "/" name).
    now rewrite re_search_after_slash.
  - change ("/" +:+ name) with (String "/" name).
    now rewrite re_search_after_slash.
Qed.

(** ** [create_contextual_nodes]: the copies *)

Section AnnotatorCopies.

Variable get_content : MetadataMode -> TextNode -> string.
Variable LLM : Type.
Variable llm_chat : LLM -> ChatRequest -> ChatResponse * LLM.

Lemma dict_keys_set (k : string) (v : Value) (d : dict) :
  dict_keys (dict_set k v d)
  = if decide (k ∈ dict_keys d) then dict_keys d else dict_keys d ++ [k].
Proof.
  unfold dict_keys. induction d as [|[k' v'] d IH].
  - cbn [dict_set map fst app].
    destruct (decide (k ∈ [])) as [Hin|_]; [|reflexivity].
    now apply elem_of_nil in Hin.
  - cbn [dict_set]. destruct (String.eqb_spec k k') as [Heq|Hne].
    + subst k'. clear IH. cbn [map fst].
      destruct (decide (k ∈ k :: map fst d)) as [_|Hnin]; [reflexivity|].
      exfalso. apply Hnin. apply list_elem_of_here.
    + cbn [map fst]. rewrite IH.
      destruct (decide (k ∈ map fst d)) as [Hin|Hnin],
               (decide (k ∈ k' :: map fst d)) as [Hin'|Hnin'];
        try reflexivity.
      * exfalso. apply Hnin'. now apply list_elem_of_further.
      * exfalso. apply elem_of_cons in Hin' as [?|?]; congruence.
Qed.

(** X8: the returned references are new and pairwise distinct, also when
    the input list names the same node twice: every occurrence gets a
    copy of its own, and the store grows by one object per input
    reference. *)
Theorem create_contextual_nodes_fresh_copies
    (nodes : list ref) (st : RunState LLM) :
  Forall (fun r => (r < length (st_store st))%nat) nodes ->
  exists nodes_modified st',
    create_contextual_nodes get_content llm_chat nodes st
    = Some (nodes_modified, st')
    /\ NoDup nodes_modified
    /\ length (st_store st')
       = (length (st_store st) + length nodes)%nat
    /\ Forall (fun r' => (length (st_store st) <= r' < length (st_store st'))%nat)
              nodes_modified.
Proof.
  intros Hvalid.
  destruct (objects_of_exist _ _ Hvalid) as [objs Hobjs].
  pose proof (Forall2_length _ _ _ Hobjs) as Hlen.
  eexists _, _.
  split; [apply (create_contextual_nodes_spec _ _ _ _ _ _ Hobjs)|].
  cbn [st_store].
  assert (Hgrow : length (st_store st
                          ++ zip_with with_context objs
                               (fst (chat_all llm_chat (st_llm st)
                                       (annotation_requests get_content objs))))
                  = (length (st_store st) + length nodes)%nat).
  { rewrite length_app, length_zip_with, chat_all_length,
      annotation_requests_length. lia. }
  split; [apply NoDup_seq|]. split; [exact Hgrow|].
  rewrite Hgrow. apply Forall_forall. intros r' Hr'.
  apply elem_of_seq in Hr'. lia.
Qed.

(** X9: the copy has the keys of its node, in the same order; the key
    ["context"] is added behind them when the node has none, and keeps
    its place, with the new summary as its value, when the node already
    has one. *)
Theorem create_contextual_nodes_context_key
    (nodes : list ref) (st : RunState LLM) :
  Forall (fun r => (r < length (st_store st))%nat) nodes ->
  exists nodes_modified st',
    create_contextual_nodes get_content llm_chat nodes st
    = Some (nodes_modified, st')
    /\ forall i r, nodes !! i = Some r ->
         exists r' n n',
           nodes_modified !! i = Some r'
           /\ st_store st !! r = Some n
           /\ st_store st' !! r' = Some n'
           /\ dict_keys (metadata n')
              = if decide ("context" ∈ dict_keys (metadata n))
                then dict_keys (metadata n)
                else dict_keys (metadata n) ++ ["context"].
Proof.
  intros Hvalid.
  destruct (objects_of_exist _ _ Hvalid) as [objs Hobjs].
  eexists _, _.
  split; [apply (create_contextual_nodes_spec _ _ _ _ _ _ Hobjs)|].
  cbn [st_store]. intros i r Hi.
  destruct (Forall2_lookup_l _ _ _ _ _ Hobjs Hi) as (n & Hn & Hrn).
  destruct (annotated_lookup objs
              (fst (chat_all llm_chat (st_llm st)
                      (annotation_requests get_content objs))) i n)
    as (resp & _ & Hz); [|exact Hn|].
  { now rewrite chat_all_length, annotation_requests_length. }
  apply lookup_lt_Some in Hi as Hlt.
  exists (length (st_store st) + i)%nat, n, (with_context n resp).
  repeat split.
  - now rewrite lookup_seq_lt.
  - exact Hrn.
  - rewrite lookup_app_r by lia.
    replace (length (st_store st) + i - length (st_store st))%nat with i
      by lia.
    exact Hz.
  - simpl. apply dict_keys_set.
Qed.

(** X10: annotating the chunks that [get_text_nodes] returned gives, for
    chunk [i], a copy with the empty text, the keys [page_num],
    [image_path], [parsed_text_markdown] and [context] in that order, and
    the chunk's own page number, image path and page text. *)
Theorem create_contextual_nodes_on_text_nodes
    (image_dir : Directory) (json_dicts : list page_dict)
    (chunks : list TextNode) (refs : list ref) (st : RunState LLM) :
  get_text_nodes image_dir json_dicts = Ok chunks ->
  objects_of (st_store st) refs chunks ->
  exists nodes_modified st',
    create_contextual_nodes get_content llm_chat refs st
    = Some (nodes_modified, st')
    /\ length nodes_modified = length json_dicts
    /\ forall i chunk, chunks !! i = Some chunk ->
         exists r' n',
           nodes_modified !! i = Some r'
           /\ st_store st' !! r' = Some n'
           /\ text n' = EmptyString
           /\ dict_keys (metadata n')
              = ["page_num"; "image_path"; "parsed_text_markdown"; "context"]
           /\ dict_get "page_num" (metadata n') = Some (VInt (Z.of_nat i + 1))
           /\ dict_get "image_path" (metadata n')
              = dict_get "image_path" (metadata chunk)
           /\ dict_get "parsed_text_markdown" (metadata n')
              = dict_get "parsed_text_markdown" (metadata chunk).
Proof.
  intros Hget Hobjs.
  pose proof (Forall2_length _ _ _ Hobjs) as Hlen.
  apply get_text_nodes_Ok_inv in Hget as (md_texts & Hmds & Hle & Hchunks).
  pose proof (Forall2_length _ _ _ Hmds) as Hlen_md.
  eexists _, _.
  split; [apply (create_contextual_nodes_spec _ _ _ _ _ _ Hobjs)|].
  cbn [st_store]. split.
  { rewrite length_seq, Hlen, Hchunks, page_nodes_length. lia. }
  intros i chunk Hi.
  destruct (annotated_lookup chunks
              (fst (chat_all llm_chat (st_llm st)
                      (annotation_requests get_content chunks))) i chunk)
    as (resp & _ & Hz); [|exact Hi|].
  { now rewrite chat_all_length, annotation_requests_length. }
  apply lookup_lt_Some in Hi as Hlt.
  (* the chunk is the pairing of position [i] *)
  assert (Hform : exists f v, chunk = page_node i f v).
  { subst chunks. rewrite page_nodes_length in Hlt.
    destruct (lookup_lt_is_Some_2 (_get_sorted_image_files image_dir) i)
      as [f Hf]; [lia|].
    destruct (lookup_lt_is_Some_2 md_texts i) as [v Hv]; [lia|].
    rewrite (page_nodes_lookup 0 i _ _ _ _ Hf Hv) in Hi.
    inversion Hi. eauto. }
  destruct Hform as (f & v & ->).
  exists (length (st_store st) + i)%nat, (with_context (page_node i f v) resp).
  repeat split.
  - rewrite lookup_seq_lt by lia. reflexivity.
  - rewrite lookup_app_r by lia.
    replace (length (st_store st) + i - length (st_store st))%nat with i
      by lia.
    exact Hz.
Qed.

End AnnotatorCopies.

Lemma create_contextual_nodes_fresh_copies_witness :
  exists nodes_modified st',
    create_contextual_nodes Sample.get_content Sample.llm_chat
      [0%nat; 0%nat] Sample.initial_state
    = Some (nodes_modified, st')
    /\ NoDup nodes_modified
    /\ length (st_store st') = 4%nat.
Proof.
  destruct (create_contextual_nodes_fresh_copies
              Sample.get_content nat Sample.llm_chat
              [0%nat; 0%nat] Sample.initial_state)
    as (nodes_modified & st' & Hrun & Hnd & Hlen & _).
  - repeat constructor.
  - exists nodes_modified, st'. auto.
Defined.

Lemma create_contextual_nodes_context_key_witness :
  exists nodes_modified st',
    create_contextual_nodes Sample.get_content Sample.llm_chat
      Sample.chunk_refs Sample.initial_state
    = Some (nodes_modified, st')
    /\ exists r' n',
         nodes_modified !! 0%nat = Some r'
         /\ st_store st' !! r' = Some n'
         /\ dict_keys (metadata n')
            = ["page_num"; "image_path"; "parsed_text_markdown"; "context"].
Proof.
  destruct (create_contextual_nodes_context_key
              Sample.get_content nat Sample.llm_chat
              Sample.chunk_refs Sample.initial_state sample_chunk_refs_valid)
    as (nodes_modified & st' & Hrun & Hkeys).
  exists nodes_modified, st'. split; [exact Hrun|].
  destruct (Hkeys 0%nat 0%nat eq_refl) as (r' & n & n' & Hr' & Hn & Hn' & Hk).
  exists r', n'. repeat split; auto.
  inversion Hn; subst n. exact Hk.
Defined.

Lemma create_contextual_nodes_on_text_nodes_witness :
  exists nodes_modified st',
    create_contextual_nodes Sample.get_content Sample.llm_chat
      Sample.chunk_refs Sample.initial_state
    = Some (nodes_modified, st')
    /\ length nodes_modified = length Sample.two_pages.
Proof.
  destruct (create_contextual_nodes_on_text_nodes
              Sample.get_content nat Sample.llm_chat
              Sample.two_images Sample.two_pages Sample.chunks
              Sample.chunk_refs Sample.initial_state)
    as (nodes_modified & st' & Hrun & Hlen & _).
  - rewrite (get_text_nodes_spec _ _ [VStr "first page"; VStr "second page"]).
    + reflexivity.
    + repeat constructor; apply lookup_singleton_eq.
  - repeat constructor.
  - exists nodes_modified, st'. auto.
Defined.

(** ** [custom_query]: failure, and the chunks of [get_text_nodes] *)

Section QueryEngineMore.

Variable Score : Type.

Lemma mapM_image_node_of_raises (nodes : list (NodeWithScore Score TextNode)) :
  Exists (fun n => forall p,
            dict_get "image_path" (metadata (node n)) <> Some (VStr p)) nodes ->
  exists e, mapM image_node_of nodes = Raise e
            /\ (e = KeyError "image_path" \/ e = ValidationError).
Proof.
  induction nodes as [|n ns IH]; intros H; [inversion H|].
  rewrite mapM_result_cons. unfold image_node_of at 1, dict_item.
  destruct (dict_get "image_path" (metadata (node n))) as [[z|p]|] eqn:Hn;
    simpl.
  - exists ValidationError. auto.
  - inversion H as [? ? Hbad | ? ? Hrest]; subst.
    + now contradiction (Hbad p).
    + destruct (IH Hrest) as (e & -> & He). exists e. auto.
  - exists (KeyError "image_path"). auto.
Qed.

Lemma page_nodes_elem (k : nat) (image_files : list Path)
    (md_texts : list Value) (n : TextNode) :
  n ∈ page_nodes k image_files md_texts ->
  exists idx f v, n = page_node idx f v /\ f ∈ image_files.
Proof.
  revert k md_texts; induction image_files as [|f fs IH]; intros k [|v vs] Hn;
    simpl in Hn; try (now apply elem_of_nil in Hn).
  apply elem_of_cons in Hn as [-> | Hn].
  - exists k, f, v. split; [reflexivity | apply list_elem_of_here].
  - destruct (IH _ _ Hn) as (idx & f' & v' & -> & Hf).
    exists idx, f', v'. split; [reflexivity | now apply list_elem_of_further].
Qed.

End QueryEngineMore.

(** X11: when a retrieved chunk has no [image_path] key, [custom_query]
    raises: [KeyError("image_path")], or the validation error of an
    earlier chunk whose [image_path] is an integer.  The multimodal
    service is not called: the services are left in the state in which
    retrieval left them. *)
Theorem custom_query_raises_before_generation
    (Score World : Type) (get_content : MetadataMode -> TextNode -> string)
    (self : MultimodalQueryEngine Score World) (query_str : string)
    (w : World) :
  Exists (fun n => dict_get "image_path" (metadata (node n)) = None)
         (fst (retriever self w query_str)) ->
  exists e,
    custom_query get_content self query_str w
    = (Raise e, snd (retriever self w query_str))
    /\ (e = KeyError "image_path" \/ e = ValidationError).
Proof.
  intros Hmissing. unfold custom_query.
  destruct (retriever self w query_str) as [nodes w1]. simpl in *.
  destruct (mapM_image_node_of_raises Score nodes) as (e & -> & He).
  { eapply Exists_impl; [exact Hmissing|]. intros n Hn p. simpl in Hn.
    rewrite Hn. discriminate. }
  exists e. auto.
Qed.

Lemma custom_query_raises_before_generation_witness :
  custom_query Sample.get_content
    (mkMultimodalQueryEngine nat nat QA_PROMPT
       (fun w _ => ([mkNodeWithScore (mkTextNode "no image" []) None], S w))
       (fun w _ _ => ("The answer.", S w)))
    "which page?" 0%nat
  = (Raise (KeyError "image_path"), 1%nat).
Proof.
  destruct (custom_query_raises_before_generation nat nat Sample.get_content
              (mkMultimodalQueryEngine nat nat QA_PROMPT
                 (fun w _ =>
                    ([mkNodeWithScore (mkTextNode "no image" []) None], S w))
                 (fun w _ _ => ("The answer.", S w)))
              "which page?" 0%nat)
    as (e & Hrun & _).
  - apply Exists_cons_hd. reflexivity.
  - reflexivity.
Defined.

(** X12: a query engine whose retriever returns chunks that
    [get_text_nodes] produced never fails on them: it builds, for every
    retrieved chunk, an image reference to a regular file of the pairing
    list, the one the chunk names in [image_path]. *)
Theorem custom_query_on_text_nodes
    (Score World : Type) (get_content : MetadataMode -> TextNode -> string)
    (image_dir : Directory) (json_dicts : list page_dict)
    (chunks : list TextNode)
    (self : MultimodalQueryEngine Score World) (query_str : string)
    (w : World) :
  get_text_nodes image_dir json_dicts = Ok chunks ->
  Forall (fun n => node n ∈ chunks) (fst (retriever self w query_str)) ->
  exists resp w',
    custom_query get_content self query_str w = (Ok resp, w')
    /\ source_nodes resp = fst (retriever self w query_str)
    /\ forall i n, fst (retriever self w query_str) !! i = Some n ->
         exists f,
           f ∈ _get_sorted_image_files image_dir
           /\ is_file f = true
           /\ dict_get "image_path" (metadata (node n))
              = Some (VStr (path_str f))
           /\ image_nodes (response_metadata resp) !! i
              = Some (mkNodeWithScore (mkImageNode (Some (path_str f))) None).
Proof.
  intros (md_texts & _ & _ & ->)%get_text_nodes_Ok_inv Hfrom.
  assert (Hpaths : Forall (fun n : NodeWithScore Score TextNode =>
                             exists f, f ∈ _get_sorted_image_files image_dir
                                       /\ dict_get "image_path"
                                            (metadata (node n))
                                          = Some (VStr (path_str f)))
                          (fst (retriever self w query_str))).
  { eapply Forall_impl; [exact Hfrom|]. intros n Hn. simpl in Hn.
    apply page_nodes_elem in Hn as (idx & f & v & -> & Hf).
    exists f. auto. }
  unfold custom_query.
  destruct (retriever self w query_str) as [nodes w1]. simpl in *.
  destruct (mapM_image_node_of Score nodes) as (ims & -> & Hall).
  { eapply Forall_impl; [exact Hpaths|]. intros n (f & _ & Hf). eauto. }
  destruct (multi_modal_llm self w1 _ _) as [llm_response w2] eqn:Hllm.
  eexists _, _. split; [reflexivity|]. simpl. split; [reflexivity|].
  intros i n Hn.
  destruct (Forall2_lookup_l _ _ _ _ _ Hall Hn) as (im & Him & p & Hp & ->).
  rewrite Forall_forall in Hpaths.
  destruct (Hpaths n) as (f & Hf & Hfp).
  { now apply (list_elem_of_lookup_2 _ i). }
  rewrite Hfp in Hp. inversion Hp; subst p.
  exists f. repeat split; auto.
  unfold _get_sorted_image_files in Hf. cbv zeta in Hf.
  apply elem_of_sorted, elem_of_raw_files in Hf. tauto.
Qed.

Lemma custom_query_on_text_nodes_witness :
  exists resp w',
    custom_query Sample.get_content Sample.query_engine "which page?" tt
    = (Ok resp, w')
    /\ length (source_nodes resp) = 2%nat.
Proof.
  destruct (custom_query_on_text_nodes nat unit Sample.get_content
              Sample.two_images Sample.two_pages Sample.chunks
              Sample.query_engine "which page?" tt)
    as (resp & w' & Hrun & Hsrc & _).
  - rewrite (get_text_nodes_spec _ _ [VStr "first page"; VStr "second page"]).
    + reflexivity.
    + repeat constructor; apply lookup_singleton_eq.
  - apply Forall_cons_2; [apply list_elem_of_further, list_elem_of_here|].
    apply Forall_cons_2; [apply list_elem_of_here | apply Forall_nil_2].
  - exists resp, w'. split; [exact Hrun|]. now rewrite Hsrc.
Defined.

(** ** What the prompts contain *)

Section PromptFacts.

Lemma append_nil_r_str (a : string) : a +:+ EmptyString = a.
Proof. induction a as [|c a IH]; simpl; [reflexivity | now rewrite IH]. Qed.

Lemma contains_here (p rest : string) : PyStr.contains p (p +:+ rest) = true.
Proof. exact (contains_intro EmptyString p rest). Qed.

Lemma contains_refl (p : string) : PyStr.contains p p = true.
Proof.
  rewrite <- (append_nil_r_str p) at 2. apply contains_here.
Qed.

Lemma contains_app_r (p a b : string) :
  PyStr.contains p b = true -> PyStr.contains p (a +:+ b) = true.
Proof.
  intros Hb. induction a as [|c a IH]; [exact Hb|].
  change (String c a +:+ b) with (String c (a +:+ b)).
  rewrite contains_eq, IH. now destruct (PyStr.strip_prefix _ _).
Qed.

Lemma strip_prefix_app_l (p a b r : string) :
  PyStr.strip_prefix p a = Some r ->
  PyStr.strip_prefix p (a +:+ b) = Some (r +:+ b).
Proof.
  intros ->%strip_prefix_Some. now rewrite app_assoc_str, strip_prefix_app.
Qed.

Lemma contains_app_l (p a b : string) :
  PyStr.contains p a = true -> PyStr.contains p (a +:+ b) = true.
Proof.
  induction a as [|c a IH]; intros Ha.
  - rewrite contains_eq in Ha.
    destruct (PyStr.strip_prefix p EmptyString) as [r|] eqn:Hp;
      [|discriminate].
    apply strip_prefix_Some in Hp. destruct p; [|discriminate].
    rewrite contains_eq. now destruct b.
  - rewrite contains_eq in Ha.
    change (String c a +:+ b) with (String c (a +:+ b)). rewrite contains_eq.
    destruct (PyStr.strip_prefix p (String c a)) as [r|] eqn:Hp.
    + change (String c (a +:+ b)) with (String c a +:+ b).
      now rewrite (strip_prefix_app_l _ _ b _ Hp).
    + rewrite (IH Ha).
      destruct (PyStr.strip_prefix p (String c (a +:+ b))); reflexivity.
Qed.

Lemma join_cons (sep x : string) (rest : list string) :
  PyStr.join sep (x :: rest)
  = match rest with
    | [] => x
    | _ :: _ => x +:+ sep +:+ PyStr.join sep rest
    end.
Proof. destruct rest; reflexivity. Qed.

(** Every part of a join occurs in it. *)
Lemma contains_join (sep x : string) (parts : list string) (i : nat) :
  parts !! i = Some x -> PyStr.contains x (PyStr.join sep parts) = true.
Proof.
  revert i; induction parts as [|y rest IH]; intros i Hi; [discriminate|].
  rewrite join_cons. destruct i as [|i]; simpl in Hi.
  - inversion Hi; subst y. destruct rest; [apply contains_refl|].
    apply contains_here.
  - destruct rest as [|z rest']; [discriminate|].
    apply contains_app_r, contains_app_r. now apply (IH i).
Qed.

End PromptFacts.

(** X13: in the request for a chunk, the content of that chunk occurs in
    both parts of the user message: in the cached whole-document part,
    which holds the content of every chunk, and in the chunk part. *)
Theorem create_contextual_nodes_request_contains_chunk
    (get_content : MetadataMode -> TextNode -> string) (LLM : Type)
    (llm_chat : LLM -> ChatRequest -> ChatResponse * LLM)
    (nodes : list ref) (st : RunState LLM) :
  Forall (fun r => (r < length (st_store st))%nat) nodes ->
  exists nodes_modified st' reqs,
    create_contextual_nodes get_content llm_chat nodes st
    = Some (nodes_modified, st')
    /\ st_requests st' = st_requests st ++ reqs
    /\ forall i r, nodes !! i = Some r ->
         exists n req document chunk,
           st_store st !! r = Some n
           /\ reqs !! i = Some req
           /\ messages req
              = [ mkChatMessage system
                    (ContentText "You are a helpful AI Assistant.");
                  mkChatMessage user (ContentParts [document; chunk]) ]
           /\ PyStr.contains (get_content MetadataMode_ALL n)
                             (part_text document) = true
           /\ PyStr.contains (get_content MetadataMode_ALL n)
                             (part_text chunk) = true.
Proof.
  intros Hvalid.
  destruct (objects_of_exist _ _ Hvalid) as [objs Hobjs].
  eexists _, _, (annotation_requests get_content objs).
  split; [apply (create_contextual_nodes_spec _ _ _ _ _ _ Hobjs)|].
  cbn [st_requests]. split; [reflexivity|].
  intros i r Hi.
  destruct (Forall2_lookup_l _ _ _ _ _ Hobjs Hi) as (n & Hn & Hrn).
  exists n. eexists _, _, _. split; [exact Hrn|]. split.
  { unfold annotation_requests. cbv zeta.
    rewrite list_lookup_fmap, Hn. reflexivity. }
  split; [reflexivity|]. cbn [part_text document_part chunk_part]. split.
  - unfold whole_doc_text. do 4 apply contains_app_r. apply contains_app_l.
    apply (contains_join _ _ _ i). now rewrite list_lookup_fmap, Hn.
  - unfold chunk_text. do 4 apply contains_app_r. apply contains_here.
Qed.

Lemma create_contextual_nodes_request_contains_chunk_witness :
  exists nodes_modified st' reqs,
    create_contextual_nodes Sample.get_content Sample.llm_chat
      Sample.chunk_refs Sample.initial_state
    = Some (nodes_modified, st')
    /\ st_requests st' = reqs
    /\ length reqs = 2%nat.
Proof.
  destruct (create_contextual_nodes_request_contains_chunk
              Sample.get_content nat Sample.llm_chat
              Sample.chunk_refs Sample.initial_state sample_chunk_refs_valid)
    as (nodes_modified & st' & reqs & Hrun & Hreqs & _).
  assert (Hsome : create_contextual_nodes Sample.get_content Sample.llm_chat
                    Sample.chunk_refs Sample.initial_state
                  = Some ([2; 3]%nat,
                          mkRunState
                            (Sample.chunks
                             ++ map (fun n => with_context n
                                       (mkChatResponse assistant
                                          "Page of the sample document."))
                                    Sample.chunks)
                            2%nat
                            (annotation_requests Sample.get_content
                               Sample.chunks))) by reflexivity.
  rewrite Hsome in Hrun. inversion Hrun; subst nodes_modified st'.
  eexists _, _, _. split; [exact Hsome|]. split; reflexivity.
Defined.

(** X14: an engine built without a prompt of its own sends the
    multimodal service, together with the image references, a prompt in
    which the query occurs literally and the content of every retrieved
    chunk occurs. *)
Theorem custom_query_default_prompt
    (Score World : Type) (get_content : MetadataMode -> TextNode -> string)
    (retrieve : World -> string -> list (NodeWithScore Score TextNode) * World)
    (complete : World -> string -> list ImageNode -> string * World)
    (query_str : string) (w : World) :
  Forall (fun n => exists p,
            dict_get "image_path" (metadata (node n)) = Some (VStr p))
         (fst (retrieve w query_str)) ->
  exists resp w' prompt,
    custom_query get_content
      (MultimodalQueryEngine_init Score World None retrieve complete)
      query_str w
    = (Ok resp, w')
    /\ (response resp, w')
       = complete (snd (retrieve w query_str)) prompt
           (map node (image_nodes (response_metadata resp)))
    /\ PyStr.contains query_str prompt = true
    /\ forall i n, fst (retrieve w query_str) !! i = Some n ->
         PyStr.contains (get_content MetadataMode_LLM (node n)) prompt = true.
Proof.
  intros Hpaths. unfold custom_query, MultimodalQueryEngine_init.
  cbn [retriever multi_modal_llm qa_prompt default].
  destruct (retrieve w query_str) as [nodes w1]. simpl in Hpaths |- *.
  destruct (mapM_image_node_of Score nodes Hpaths) as (ims & -> & Hall).
  destruct (complete w1 _ _) as [llm_response w2] eqn:Hllm.
  eexists _, _, _. split; [reflexivity|]. cbn [response response_metadata
                                               image_nodes].
  split; [symmetry; exact Hllm|]. split.
  - unfold QA_PROMPT. do 15 apply contains_app_r. apply contains_here.
  - intros i n Hn. unfold QA_PROMPT. do 5 apply contains_app_r.
    apply contains_app_l. apply (contains_join _ _ _ i).
    now rewrite list_lookup_fmap, Hn.
Qed.

Lemma custom_query_default_prompt_witness :
  exists resp w' prompt,
    custom_query Sample.get_content Sample.query_engine "which page?" tt
    = (Ok resp, w')
    /\ (response resp, w')
       = Sample.multi_modal_llm tt prompt
           (map node (image_nodes (response_metadata resp)))
    /\ PyStr.contains "which page?" prompt = true.
Proof.
  destruct (custom_query_default_prompt nat unit Sample.get_content
              Sample.retriever Sample.multi_modal_llm "which page?" tt)
    as (resp & w' & prompt & Hrun & Hcall & Hq & _).
  - repeat constructor; eexists; reflexivity.
  - exists resp, w', prompt. auto.
Defined.

(** X15: the digits are read as a decimal number, so a leading zero does
    not change the page number: a zero-padded file name and the plain one
    give the same number. *)
Theorem get_page_number_leading_zero (pre ds : string) :
  ds <> EmptyString -> PyStr.all_digits ds = true ->
  get_page_number (pre +:+ "-page_0" +:+ ds +:+ ".jpg")
  = get_page_number (pre +:+ "-page_" +:+ ds +:+ ".jpg").
Proof.
  intros Hne Hd.
  pose proof (get_page_number_match pre ds EmptyString Hd Hne eq_refl) as H1.
  pose proof (get_page_number_match pre (String "0" ds) EmptyString) as H0.
  rewrite append_nil_r_str in H1. rewrite H1.
  change ("-page_0" +:+ ds +:+ ".jpg")
    with ("-page_" +:+ String "0" ds +:+ ".jpg" +:+ EmptyString).
  rewrite H0; [| | discriminate | reflexivity].
  - unfold PyStr.int_of_digits.
    now rewrite (int_of_digits_eq (String "0" ds)).
  - now rewrite all_digits_eq.
Qed.

Lemma get_page_number_leading_zero_witness :
  get_page_number "doc-page_012.jpg" = get_page_number "doc-page_12.jpg".
Proof.
  apply (get_page_number_leading_zero "doc" "12"); [discriminate | reflexivity].
Defined.
